(** * DiveBuddy backend: the event gateway, the join/leave rules and asyncHandler

    A shallow embedding of [backend/src/utils/asyncHandler.util.ts] and
    [backend/src/models/event.model.ts], of the document collection the
    gateway talks to, and of the event controller as the specification
    describes it, followed by the properties of the specification that
    concern them. *)

From Stdlib Require Import ZArith String Ascii List.
From Stdlib Require QArith_base.
From stdpp Require Import base option list gmap strings sorting.

Local Open Scope string_scope.
Local Open Scope Z_scope.

(** ** JavaScript control flow: exceptions and asynchronous functions *)

(** The two classes of thrown values the sources tell apart with
    [instanceof]: [z.ZodError] (with its issues) and plain [Error]
    (with its message). *)
Inductive Exn : Type :=
  | ZodError (issues : list string)
  | Error (message : string).

Definition instanceof_ZodError (error : Exn) : bool :=
  match error with
  | ZodError _ => true
  | Error _ => false
  end.

(** [error.message]; for a [ZodError] it renders the issues. *)
Definition message_of (error : Exn) : string :=
  match error with
  | ZodError issues => String.concat "; " issues
  | Error m => m
  end.

(** How a call ends: it returns (an [async] function: its promise
    fulfils) or it throws (its promise rejects). *)
Inductive Outcome (A : Type) : Type :=
  | Returned (a : A)
  | Thrown (e : Exn).
Arguments Returned {A} a.
Arguments Thrown {A} e.

(** An [async] function over a store of type [St]; what it did to the
    store before throwing stays done. *)
Definition Async (St A : Type) : Type := St -> Outcome A * St.

Definition ret {St A} (a : A) : Async St A := fun s => (Returned a, s).

Definition throw {St A} (e : Exn) : Async St A := fun s => (Thrown e, s).

Definition bind {St A B} (c : Async St A) (k : A -> Async St B) : Async St B :=
  fun s =>
    match c s with
    | (Returned a, s') => k a s'
    | (Thrown e, s') => (Thrown e, s')
    end.

(** [try { body } catch (error) { handler }] *)
Definition try_catch {St A} (body : Async St A) (handler : Exn -> Async St A)
  : Async St A :=
  fun s =>
    match body s with
    | (Returned a, s') => (Returned a, s')
    | (Thrown e, s') => handler e s'
    end.

Notation "'await' x ':=' c 'in' k" := (bind c (fun x => k))
  (at level 10, x name, c at level 100, k at level 200,
   format "'[v' 'await'  x  :=  c  'in' '/' k ']'").

(** ** Data model *)

(** A [mongoose.Types.ObjectId]: twelve bytes, read as a number. *)
Definition ObjectId : Type := N.

(** A [Date], as milliseconds since the epoch. *)
Definition Date : Type := Z.

(** [IEvent]: a stored event document, with the fields of [eventSchema]
    and the two timestamps its [timestamps: true] option adds. *)
Record IEvent : Type := mkEvent {
  _id : ObjectId;
  title : string;
  description : string;
  date : Date;
  capacity : Z;
  skillLevel : option string;
  location : option string;
  latitude : option QArith_base.Q;
  longitude : option QArith_base.Q;
  createdBy : ObjectId;
  attendees : list ObjectId;
  photo : option string;
  createdAt : Date;
  updatedAt : Date
}.

(** A request payload: a JavaScript object in which every field of an
    event may be present or missing.  It serves as [CreateEventRequest]
    and as [Partial<IEvent>]. *)
Module Req.
Record t : Type := mk {
  title : option string;
  description : option string;
  date : option Date;
  capacity : option Z;
  skillLevel : option string;
  location : option string;
  latitude : option QArith_base.Q;
  longitude : option QArith_base.Q;
  createdBy : option ObjectId;
  attendees : option (list ObjectId);
  photo : option string
}.

(** The object [{ attendees: l }]. *)
Definition only_attendees (l : list ObjectId) : t :=
  mk None None None None None None None None None (Some l) None.
End Req.

(** ** Validation schemas *)

(** The result of [schema.safeParse]: the normalised value or the list
    of issues. *)
Inductive ZodResult (A : Type) : Type :=
  | ZOk (value : A)
  | ZErr (issues : list string).
Arguments ZOk {A} value.
Arguments ZErr {A} issues.

(** [schema.parse(x)]: returns the value or throws a [ZodError]. *)
Definition parse {St A B} (schema : A -> ZodResult B) (x : A) : Async St B :=
  match schema x with
  | ZOk v => ret v
  | ZErr issues => throw (ZodError issues)
  end.

Module event_types.
Section Schemas.
(** The allowed skill levels ([constants/statics], which is not among
    the sources). *)
Variable SKILL_LEVELS : list string.

(** The length of a string in characters. *)
Definition len (s : string) : Z := Z.of_nat (String.length s).

Definition required {A} (field : string) (v : option A) : list string :=
  match v with
  | Some _ => []
  | None => [field ++ ": required"]
  end.

Definition check {A} (v : option A) (rule : A -> bool) (issue : string)
  : list string :=
  match v with
  | Some a => if rule a then [] else [issue]
  | None => []
  end.

(** Modelled from the spec: the bounds of the fields of an event (title
    of 1 to 100 characters, description not empty, capacity at least 1,
    skill level among the allowed ones), checked on the fields that are
    present; the same in both modes. *)
Definition field_issues (p : Req.t) : list string :=
  check (Req.title p) (fun t => (1 <=? len t) && (len t <=? 100))
        "title: must be between 1 and 100 characters"
  ++ check (Req.description p) (fun d => 1 <=? len d)
        "description: must not be empty"
  ++ check (Req.capacity p) (fun c => 1 <=? c)
        "capacity: must be at least 1"
  ++ check (Req.skillLevel p)
        (fun l => bool_decide (l ∈ SKILL_LEVELS))
        "skillLevel: not an allowed value".

(** Modelled from the spec: the mandatory fields of an event; the
    optional ones are the skill level, the location with its coordinates
    and the photo. *)
Definition missing_issues (p : Req.t) : list string :=
  required "title" (Req.title p)
  ++ required "description" (Req.description p)
  ++ required "date" (Req.date p)
  ++ required "capacity" (Req.capacity p)
  ++ required "createdBy" (Req.createdBy p)
  ++ required "attendees" (Req.attendees p).

Definition verdict (issues : list string) (p : Req.t) : ZodResult Req.t :=
  match issues with
  | [] => ZOk p
  | _ :: _ => ZErr issues
  end.

(** Modelled from the spec: [createEventSchema] of [types/event.types],
    which is not among the sources.  Mode [create]: every mandatory
    field is there and every field present is within its bounds; the
    failure lists each violated field. *)
Definition createEventSchema (p : Req.t) : ZodResult Req.t :=
  verdict (missing_issues p ++ field_issues p) p.

(** Modelled from the spec: [updateEventSchema] of [types/event.types],
    which is not among the sources.  Mode [update]: every field is
    optional, a field that is present is validated. *)
Definition updateEventSchema (p : Req.t) : ZodResult Req.t :=
  verdict (field_issues p) p.
End Schemas.
End event_types.

(** ** The document-store driver *)

Module mongoose.
(** A sort direction, as in [{ date: -1 }]. *)
Inductive Direction : Type := Ascending | Descending.

Definition direction_of (n : Z) : Direction :=
  if n <? 0 then Descending else Ascending.

(** The operations of [mongoose.Model<IEvent>] the gateway calls, over
    a store of type [St].  [find_sort_exec d] is
    [find().sort({ date: d }).exec()]. *)
Record Model (St : Type) : Type := {
  create : Req.t -> Async St IEvent;
  findByIdAndUpdate : ObjectId -> Req.t -> Async St (option IEvent);
  findByIdAndDelete : ObjectId -> Async St (option IEvent);
  findOne : ObjectId -> Async St (option IEvent);
  find_sort_exec : Z -> Async St (list IEvent)
}.
Arguments create {St} _ _ _.
Arguments findByIdAndUpdate {St} _ _ _ _.
Arguments findByIdAndDelete {St} _ _ _.
Arguments findOne {St} _ _ _.
Arguments find_sort_exec {St} _ _ _.
End mongoose.

(** ** The event gateway ([event.model.ts])

    The [console.error] and [logger.error] lines of the [catch] blocks
    write to the log of the process and nothing else; they are left out. *)

Module EventModel.
Section EventModel.
Context {St : Type}.
(** [this.event], and the two schemas imported from [types/event.types]. *)
Variable event : mongoose.Model St.
Variable createEventSchema : Req.t -> ZodResult Req.t.
Variable updateEventSchema : Req.t -> ZodResult Req.t.

Definition create (eventData : Req.t) : Async St IEvent :=
  try_catch
    (await validatedData := parse createEventSchema eventData in
     mongoose.create event validatedData)
    (fun error =>
       if instanceof_ZodError error
       then throw (Error "Invalid update data")
       else throw (Error "Failed to create event")).

Definition update (eventId : ObjectId) (ev : Req.t) : Async St (option IEvent) :=
  try_catch
    (await validatedData := parse updateEventSchema ev in
     await updatedEvent := mongoose.findByIdAndUpdate event eventId validatedData in
     ret updatedEvent)
    (fun error =>
       if instanceof_ZodError error
       then throw (Error "Invalid update data")
       else throw (Error "Failed to update event")).

Definition delete (eventId : ObjectId) : Async St unit :=
  try_catch
    (await deleted := mongoose.findByIdAndDelete event eventId in
     ret tt)
    (fun error => throw (Error "Failed to delete event")).

Definition findById (id : ObjectId) : Async St (option IEvent) :=
  try_catch
    (await found := mongoose.findOne event id in
     match found with
     | None => ret None
     | Some ev => ret (Some ev)
     end)
    (fun error => throw (Error "Failed to find event")).

Definition findAll : Async St (list IEvent) :=
  try_catch
    (mongoose.find_sort_exec event (-1))
    (fun error => throw (Error "Failed to fetch events")).
End EventModel.
End EventModel.

(** ** The user gateway *)

Module UserModel.
Section UserModel.
Context {St IUser UserData : Type}.
(** [findByIdAndUpdate] of the driver of the users collection, and the
    update schema of a user. *)
Variable findByIdAndUpdate : ObjectId -> UserData -> Async St (option IUser).
Variable updateProfileSchema : UserData -> ZodResult UserData.

(** Modelled from the spec: [update(id, partialData)] of the user
    gateway ([models/user.model], which is not among the sources).  It
    validates the data against the update schema, a failure being the
    validation error; it returns the updated record, or null if no record
    matches; a failure of the store is thrown again with the message of
    the entity, "Failed to update user" in the test of the gateway. *)
Definition update (userId : ObjectId) (user : UserData)
  : Async St (option IUser) :=
  await validatedData := parse updateProfileSchema user in
  try_catch
    (findByIdAndUpdate userId validatedData)
    (fun error => throw (Error "Failed to update user")).
End UserModel.
End UserModel.

(** ** The events collection

    The document store behind the driver: the collection keyed by the
    unique [_id], the reading of the clock at the time of the call, which
    stamps documents, and the condition of the connection.  Its driver is [mongoose.model<IEvent>('Event',
    eventSchema)], so it applies the setters and validators of
    [eventSchema]. *)

Module Collection.
Record t : Type := mk {
  docs : gmap ObjectId IEvent;
  now : Date;
  (** [Some m]: the connection is down and every operation rejects
      with [Error m]. *)
  outage : option string
}.

(** What [String.prototype.trim] removes: the white space and the line
    terminators of ECMAScript.  A string here is a sequence of characters
    with code points below 256, one [ascii] each; of those code points
    U+0009 to U+000D, U+0020 and U+00A0 are white space or line
    terminators (the others, U+FEFF, U+2028, U+2029 and the further space
    separators, lie above 255). *)
Definition is_white_space (c : ascii) : bool :=
  match c with
  | "009" | "010" | "011" | "012" | "013" | " " | "160" => true
  | _ => false
  end%char.

(** [trim: true]: leading and trailing white space is removed. *)
Fixpoint trimStart (s : string) : string :=
  match s with
  | String c rest => if is_white_space c then trimStart rest else s
  | EmptyString => EmptyString
  end.

Definition trim (s : string) : string :=
  String.rev (trimStart (String.rev (trimStart s))).

Definition within (lo : Z) (hi : option Z) (s : string) : bool :=
  let n := Z.of_nat (String.length s) in
  (lo <=? n) && match hi with Some h => n <=? h | None => true end.

Section Schema.
Variable SKILL_LEVELS : list string.

(** A value for an optional string path, after its setter: absent,
    or present and valid. *)
Definition optional_path (rule : string -> bool) (v : option string)
  : option (option string) :=
  match v with
  | None => Some None
  | Some s => if rule (trim s) then Some (Some (trim s)) else None
  end.

(** [eventSchema] applied to the data of a new document: the document
    with identifier [id] stamped at [stamp], or [None] when a
    validator fails. *)
Definition eventSchema (id : ObjectId) (stamp : Date) (data : Req.t)
  : option IEvent :=
  match Req.title data, Req.description data, Req.date data,
        Req.capacity data, Req.createdBy data,
        optional_path (fun l => bool_decide (l ∈ SKILL_LEVELS))
                      (Req.skillLevel data)
  with
  | Some t, Some d, Some when, Some c, Some creator, Some level =>
    if within 1 (Some 100) (trim t) && within 1 None (trim d) && (1 <=? c)
    then Some {| _id := id;
                 title := trim t;
                 description := trim d;
                 date := when;
                 capacity := c;
                 skillLevel := level;
                 location := trim <$> Req.location data;
                 latitude := Req.latitude data;
                 longitude := Req.longitude data;
                 createdBy := creator;
                 attendees := default [] (Req.attendees data);
                 photo := trim <$> Req.photo data;
                 createdAt := stamp;
                 updatedAt := stamp |}
    else None
  | _, _, _, _, _, _ => None
  end.
End Schema.

(** The update [{ $set: data }] with the setters applied; validators do
    not run on updates. *)
Definition set_fields (stamp : Date) (data : Req.t) (ev : IEvent) : IEvent :=
  {| _id := _id ev;
     title := default (title ev) (trim <$> Req.title data);
     description := default (description ev) (trim <$> Req.description data);
     date := default (date ev) (Req.date data);
     capacity := default (capacity ev) (Req.capacity data);
     skillLevel := from_option Some (skillLevel ev) (trim <$> Req.skillLevel data);
     location := from_option Some (location ev) (trim <$> Req.location data);
     latitude := from_option Some (latitude ev) (Req.latitude data);
     longitude := from_option Some (longitude ev) (Req.longitude data);
     createdBy := default (createdBy ev) (Req.createdBy data);
     attendees := default (attendees ev) (Req.attendees data);
     photo := from_option Some (photo ev) (trim <$> Req.photo data);
     createdAt := createdAt ev;
     updatedAt := stamp |}.

Definition with_docs (db : t) (m : gmap ObjectId IEvent) : t :=
  {| docs := m; now := now db; outage := outage db |}.

(** Time passes between calls, not within one: [now] is the reading of
    the clock at the call under way, which stamps what the call writes,
    and [elapse d] is the store [d] milliseconds later. *)
Definition elapse (d : Z) (db : t) : t :=
  {| docs := docs db; now := now db + d; outage := outage db |}.

(** [{ ...ev, updatedAt: stamp }] *)
Definition restamp (stamp : Date) (ev : IEvent) : IEvent :=
  {| _id := _id ev; title := title ev; description := description ev;
     date := date ev; capacity := capacity ev; skillLevel := skillLevel ev;
     location := location ev; latitude := latitude ev;
     longitude := longitude ev; createdBy := createdBy ev;
     attendees := attendees ev; photo := photo ev;
     createdAt := createdAt ev; updatedAt := stamp |}.

(** Every operation needs the connection. *)
Definition connected {A} (op : Async t A) : Async t A :=
  fun db =>
    match outage db with
    | Some m => (Thrown (Error m), db)
    | None => op db
    end.

Definition all (db : t) : list IEvent := (map_to_list (docs db)).*2.

Definition by_date (d : mongoose.Direction) (a b : IEvent) : Prop :=
  match d with
  | mongoose.Ascending => date a ≤ date b
  | mongoose.Descending => date b ≤ date a
  end.

#[global] Instance by_date_dec d : RelDecision (by_date d).
Proof. intros a b. destruct d; simpl; apply _. Defined.

Definition Event (SKILL_LEVELS : list string) : mongoose.Model t := {|
  mongoose.create data := connected (fun db =>
    match eventSchema SKILL_LEVELS (fresh (dom (docs db))) (now db) data with
    | Some ev => (Returned ev, with_docs db (<[_id ev := ev]> (docs db)))
    | None => (Thrown (Error "Event validation failed"), db)
    end);
  mongoose.findByIdAndUpdate id data := connected (fun db =>
    match docs db !! id with
    | Some ev =>
      let ev' := set_fields (now db) data ev in
      (Returned (Some ev'), with_docs db (<[id := ev']> (docs db)))
    | None => (Returned None, db)
    end);
  mongoose.findByIdAndDelete id := connected (fun db =>
    (Returned (docs db !! id), with_docs db (base.delete id (docs db))));
  mongoose.findOne id := connected (fun db => (Returned (docs db !! id), db));
  mongoose.find_sort_exec d := connected (fun db =>
    (Returned (merge_sort (by_date (mongoose.direction_of d)) (all db)), db))
|}.
End Collection.

(** ** The gateway as the controller sees it *)

Module Gateway.
(** The public methods of an [EventModel] object; the tests replace
    single methods of [eventModel] with mocks. *)
Record t (St : Type) : Type := {
  create : Req.t -> Async St IEvent;
  update : ObjectId -> Req.t -> Async St (option IEvent);
  delete : ObjectId -> Async St unit;
  findById : ObjectId -> Async St (option IEvent);
  findAll : Async St (list IEvent)
}.
Arguments create {St} _ _ _.
Arguments update {St} _ _ _ _.
Arguments delete {St} _ _ _.
Arguments findById {St} _ _ _.
Arguments findAll {St} _ _.

(** A method call, as [jest.spyOn] records it. *)
Inductive Call : Type :=
  | Create (data : Req.t)
  | Update (id : ObjectId) (data : Req.t)
  | Delete (id : ObjectId)
  | FindById (id : ObjectId)
  | FindAll.

Definition recorded {St A} (c : Call) (method : Async St A)
  : Async (St * list Call) A :=
  fun '(s, calls) =>
    let '(out, s') := method s in (out, (s', (calls ++ [c])%list)).

(** The gateway with every method spied on. *)
Definition spyOn {St} (g : t St) : t (St * list Call) := {|
  create data := recorded (Create data) (create g data);
  update id data := recorded (Update id data) (update g id data);
  delete id := recorded (Delete id) (delete g id);
  findById id := recorded (FindById id) (findById g id);
  findAll := recorded FindAll (findAll g)
|}.
End Gateway.

(** [export const eventModel = new EventModel()], over the collection. *)
Definition eventModel (SKILL_LEVELS : list string) : Gateway.t Collection.t :=
  let event := Collection.Event SKILL_LEVELS in
  let createEventSchema := event_types.createEventSchema SKILL_LEVELS in
  let updateEventSchema := event_types.updateEventSchema SKILL_LEVELS in
  {| Gateway.create := EventModel.create event createEventSchema;
     Gateway.update := EventModel.update event updateEventSchema;
     Gateway.delete := EventModel.delete event;
     Gateway.findById := EventModel.findById event;
     Gateway.findAll := EventModel.findAll event |}.

(** ** Domain errors and their HTTP status *)

(** Modelled from the spec: the error kinds of its error-handling
    design. *)
Inductive ErrorKind : Type :=
  | ValidationError
  | NotFound
  | Conflict
  | Unauthorized
  | PersistenceError.

(** Modelled from the spec: the error translation of the specification's
    error-handling design (the middleware is not among the sources). *)
Definition http_status (k : ErrorKind) : Z :=
  match k with
  | ValidationError => 400
  | NotFound => 404
  | Conflict => 400
  | Unauthorized => 401
  | PersistenceError => 500
  end.

(** A failure as a handler answers it: its kind and its message. *)
Record Failure : Type := fail {
  kind : ErrorKind;
  message : string
}.

(** What a handler answers: a failure, or the data of a success. *)
Definition Answer (A : Type) : Type := Failure + A.

(** ** The event controller *)

Module EventController.
Section EventController.
Context {St : Type}.
Variable eventModel : Gateway.t St.
(** [mongoose.isValidObjectId] on a path parameter, and the
    identifier a well-formed parameter denotes. *)
Variable isValidObjectId : string -> bool.
Variable toObjectId : string -> ObjectId.

(** Modelled from the spec: [join(eventId, userId)] of the event
    controller, which is not among the sources. *)
Definition join (eventId userId : ObjectId) : Async St (Answer IEvent) :=
  await found := Gateway.findById eventModel eventId in
  match found with
  | None => ret (inl (fail NotFound "Event not found"))
  | Some ev =>
    if bool_decide (userId ∈ attendees ev)
    then ret (inl (fail Conflict "User already joined the event"))
    else if capacity ev <=? Z.of_nat (length (attendees ev))
    then ret (inl (fail Conflict "Event is at full capacity"))
    else
      await updated :=
        Gateway.update eventModel eventId
          (Req.only_attendees (attendees ev ++ [userId])) in
      match updated with
      | None => ret (inl (fail PersistenceError "Failed to update event"))
      | Some ev' => ret (inr ev')
      end
  end.

(** Modelled from the spec: [leave(eventId, userId)] of the event
    controller, which is not among the sources. *)
Definition leave (eventId userId : ObjectId) : Async St (Answer IEvent) :=
  await found := Gateway.findById eventModel eventId in
  match found with
  | None => ret (inl (fail NotFound "Event not found"))
  | Some ev =>
    if negb (bool_decide (userId ∈ attendees ev))
    then ret (inl (fail Conflict "User is not an attendee of the event"))
    else
      await updated :=
        Gateway.update eventModel eventId
          (Req.only_attendees
             (filter (fun a => a ≠ userId) (attendees ev))) in
      match updated with
      | None => ret (inl (fail PersistenceError "Failed to update event"))
      | Some ev' => ret (inr ev')
      end
  end.

(** Modelled from the spec: the handler of [GET /events/:id], which is
    not among the sources. *)
Definition getEventById (id : string) : Async St (Answer IEvent) :=
  if negb (isValidObjectId id)
  then ret (inl (fail ValidationError "Invalid event id"))
  else
    await found := Gateway.findById eventModel (toObjectId id) in
    match found with
    | None => ret (inl (fail NotFound "Event not found"))
    | Some ev => ret (inr ev)
    end.

(** Modelled from the spec: the handler of [DELETE /events/:id], which
    is not among the sources. *)
Definition deleteEvent (id : string) : Async St (Answer unit) :=
  if negb (isValidObjectId id)
  then ret (inl (fail ValidationError "Invalid event id"))
  else
    await found := Gateway.findById eventModel (toObjectId id) in
    match found with
    | None => ret (inl (fail NotFound "Event not found"))
    | Some ev =>
      await done := Gateway.delete eventModel (toObjectId id) in
      ret (inr tt)
    end.
End EventController.
End EventController.

(** The status and message a failed request is answered with; an error
    nobody caught reaches the last middleware, which answers 500 with
    [err.message || 'Internal server error']. *)
Definition failure_response {A} (out : Outcome (Answer A)) : option (Z * string) :=
  match out with
  | Returned (inl f) => Some (http_status (kind f), message f)
  | Returned (inr _) => None
  | Thrown e =>
    Some (500, if String.eqb (message_of e) "" then "Internal server error"
               else message_of e)
  end.

(** ** asyncHandler ([asyncHandler.util.ts]) *)

Module express.
Section Handlers.
(** The state of the process, the request and the response. *)
Context {W Request Response : Type}.

(** How a promise ends once the event loop has run: with a value, with
    a reason, or never. *)
Inductive Settlement : Type :=
  | Fulfilled
  | Rejected (reason : Exn)
  | Pending.

(** A promise: what its computation does to the process until it has
    settled. *)
Definition Promise : Type := W -> Settlement * W.

(** What [fn] may return: [Promise<void> | void]. *)
Inductive Result : Type :=
  | undefined
  | promise (p : Promise).

Definition instanceof_Promise (r : Result) : bool :=
  match r with
  | promise _ => true
  | undefined => false
  end.

(** [next(error)] *)
Definition NextFunction : Type := Exn -> W -> W.

(** A function called with [(req, res, next)]; it returns or throws. *)
Definition Handler (A : Type) : Type :=
  Request -> Response -> NextFunction -> Async W A.

(** [result.catch(onRejected)]: the callback runs once, with the
    reason, if the promise rejects. *)
Definition catch (result : Result) (onRejected : Exn -> W -> W) : Async W unit :=
  fun w =>
    match result with
    | promise p =>
      match p w with
      | (Rejected error, w') => (Returned tt, onRejected error w')
      | (_, w') => (Returned tt, w')
      end
    | undefined =>
      (Thrown (Error "Cannot read properties of undefined (reading 'catch')"), w)
    end.

Definition asyncHandler (fn : Handler Result) : Handler unit :=
  fun req res next =>
    bind (fn req res next) (fun result =>
      if instanceof_Promise result
      then catch result (fun error => next error)
      else ret tt).
End Handlers.
Arguments Settlement : clear implicits.
Arguments Promise : clear implicits.
Arguments Result : clear implicits.
Arguments NextFunction : clear implicits.
Arguments Handler : clear implicits.
End express.

(** ** Fixtures *)

(** The hexadecimal form of an identifier: twenty-four digits. *)
Definition hex_digit (c : ascii) : option N :=
  let n := N_of_ascii c in
  if (48 <=? n)%N && (n <=? 57)%N then Some (n - 48)%N
  else if (97 <=? n)%N && (n <=? 102)%N then Some (n - 87)%N
  else if (65 <=? n)%N && (n <=? 70)%N then Some (n - 55)%N
  else None.

Fixpoint hex_value (acc : N) (s : string) : option N :=
  match s with
  | EmptyString => Some acc
  | String c rest =>
    match hex_digit c with
    | Some d => hex_value (16 * acc + d)%N rest
    | None => None
    end
  end.

Definition isHexObjectId (s : string) : bool :=
  (String.length s =? 24)%nat && bool_decide (is_Some (hex_value 0 s)).

Definition hexObjectId (s : string) : ObjectId :=
  default 0%N (hex_value 0 s).

(** The gateway as one request sees it when another request deletes
    the event right after the first has loaded it. *)
Definition deleted_after_load {St} (g : Gateway.t St) : Gateway.t St :=
  {| Gateway.create := Gateway.create g;
     Gateway.update := Gateway.update g;
     Gateway.delete := Gateway.delete g;
     Gateway.findById id :=
       await found := Gateway.findById g id in
       await gone := Gateway.delete g id in
       ret found;
     Gateway.findAll := Gateway.findAll g |}.

Definition SKILL_LEVELS : list string := ["Beginner"; "Intermediate"; "Expert"].

(** A users collection for the examples: the display names by
    identifier; an update gives the user the new name. *)
Definition rename_user (userId : ObjectId) (name : string)
  : Async (gmap ObjectId string) (option string) :=
  fun users =>
    match users !! userId with
    | Some _ => (Returned (Some name), <[userId := name]> users)
    | None => (Returned None, users)
    end.

Definition any_name (name : string) : ZodResult string := ZOk name.

Definition sample_event (id : ObjectId) (when : Date) (cap : Z)
    (who : list ObjectId) : IEvent :=
  {| _id := id; title := "T"; description := "D"; date := when;
     capacity := cap; skillLevel := None; location := None;
     latitude := None; longitude := None; createdBy := 1%N;
     attendees := who; photo := None; createdAt := 0; updatedAt := 0 |}.

Definition sample_db (evs : list IEvent) (down : option string) : Collection.t :=
  Collection.mk (list_to_map ((fun ev => (_id ev, ev)) <$> evs)) 7 down.

Definition db1 : Collection.t :=
  sample_db [sample_event 5%N 100 2 [9%N]; sample_event 6%N 300 1 [];
             sample_event 8%N 200 1 []] None.

(** ["A".repeat(n)] *)
Fixpoint repeat_A (n : nat) : string :=
  match n with
  | O => EmptyString
  | S m => String "A" (repeat_A m)
  end.

Definition with_title (t : string) (p : Req.t) : Req.t :=
  Req.mk (Some t) (Req.description p) (Req.date p) (Req.capacity p)
         (Req.skillLevel p) (Req.location p) (Req.latitude p)
         (Req.longitude p) (Req.createdBy p) (Req.attendees p) (Req.photo p).

Definition with_capacity (c : Z) (p : Req.t) : Req.t :=
  Req.mk (Req.title p) (Req.description p) (Req.date p) (Some c)
         (Req.skillLevel p) (Req.location p) (Req.latitude p)
         (Req.longitude p) (Req.createdBy p) (Req.attendees p) (Req.photo p).

(** A title of white space only: a no-break space (U+00A0), a space, a
    tab. *)
Definition blank_title : string := String "160" (String " " (String "009" "")).

(** The payload of the scenario: an event for one attendee. *)
Definition scenario_event : Req.t :=
  Req.mk (Some "T") (Some "D") (Some 0) (Some 1) None None None None
         (Some 1%N) (Some []) None.

(** The payloads of two of the invalid-input tests. *)
Definition empty_title : Req.t :=
  Req.mk (Some "") (Some "TEST DESCRIPTION") (Some 0) (Some 10) None None
         None None (Some 1%N) (Some []) None.

Definition negative_capacity : Req.t :=
  Req.mk (Some "Valid Title") (Some "Valid Description") (Some 0) (Some (-5))
         None None None None (Some 1%N) (Some []) None.

(** A driver that writes on every call: it counts them. *)
Definition counting : mongoose.Model nat :=
  let bump {A} (a : A) : Async nat A := fun n => (Returned a, S n) in
  {| mongoose.create _ := bump (sample_event 0%N 0 1 []);
     mongoose.findByIdAndUpdate _ _ := bump None;
     mongoose.findByIdAndDelete _ := bump None;
     mongoose.findOne _ := bump None;
     mongoose.find_sort_exec _ := bump [] |}.

(** A driver whose every call rejects. *)
Definition failing (reason : string) : mongoose.Model unit :=
  {| mongoose.create _ := throw (Error reason);
     mongoose.findByIdAndUpdate _ _ := throw (Error reason);
     mongoose.findByIdAndDelete _ := throw (Error reason);
     mongoose.findOne _ := throw (Error reason);
     mongoose.find_sort_exec _ := throw (Error reason) |}.

(** ** Vocabulary of the properties *)

(** A payload that breaks one of the four rules: empty title, capacity
    at most 0, title longer than 100 characters, empty description. *)
Definition violates_rule (p : Req.t) : Prop :=
  Req.title p = Some ""
  \/ (exists c, Req.capacity p = Some c /\ c <= 0)
  \/ (exists t, Req.title p = Some t /\ 100 < Z.of_nat (String.length t))
  \/ Req.description p = Some "".

(** A payload that a validator of [eventSchema] turns down, the setters
    applied first: a mandatory path is missing, the title is not of 1 to
    100 characters or the description is empty once trimmed, the capacity
    is below 1, or the skill level is not an allowed one. *)
Definition fails_validators (levels : list string) (v : Req.t) : Prop :=
  (forall t, Req.title v = Some t ->
     Collection.within 1 (Some 100) (Collection.trim t) = false)
  \/ (forall d, Req.description v = Some d ->
        Collection.within 1 None (Collection.trim d) = false)
  \/ Req.date v = None
  \/ (forall c, Req.capacity v = Some c -> c < 1)
  \/ Req.createdBy v = None
  \/ (exists l, Req.skillLevel v = Some l /\ Collection.trim l ∉ levels).

(** * Properties *)

(** ** The gateway over a connected collection *)

Ltac run_async :=
  cbv [EventModel.create EventModel.update EventModel.delete
       EventModel.findById EventModel.findAll
       try_catch bind ret throw parse Collection.connected] in *.

Section Connected.
Variable levels : list string.
Variable db : Collection.t.
Hypothesis up : Collection.outage db = None.

Lemma findById_connected id :
  Gateway.findById (eventModel levels) id db
  = (Returned (Collection.docs db !! id), db).
Proof.
  cbn [eventModel Gateway.findById]. run_async.
  cbn [Collection.Event mongoose.findOne]. run_async.
  rewrite up. by destruct (Collection.docs db !! id).
Qed.

Lemma update_connected id p v :
  event_types.updateEventSchema levels p = ZOk v ->
  Gateway.update (eventModel levels) id p db
  = match Collection.docs db !! id with
    | Some ev =>
      let ev' := Collection.set_fields (Collection.now db) v ev in
      (Returned (Some ev'),
       Collection.with_docs db (<[id := ev']> (Collection.docs db)))
    | None => (Returned None, db)
    end.
Proof.
  intros Hv. cbn [eventModel Gateway.update]. run_async. rewrite Hv.
  cbn [Collection.Event mongoose.findByIdAndUpdate]. run_async.
  rewrite up. by destruct (Collection.docs db !! id).
Qed.

Lemma delete_connected id :
  Gateway.delete (eventModel levels) id db
  = (Returned tt,
     Collection.with_docs db (base.delete id (Collection.docs db))).
Proof.
  cbn [eventModel Gateway.delete]. run_async.
  cbn [Collection.Event mongoose.findByIdAndDelete]. run_async.
  by rewrite up.
Qed.

Lemma findAll_connected :
  Gateway.findAll (eventModel levels) db
  = (Returned (merge_sort (Collection.by_date mongoose.Descending)
                          (Collection.all db)), db).
Proof.
  cbn [eventModel Gateway.findAll]. run_async.
  cbn [Collection.Event mongoose.find_sort_exec]. run_async.
  by rewrite up.
Qed.
End Connected.

Lemma with_docs_same db : Collection.with_docs db (Collection.docs db) = db.
Proof. by destruct db. Qed.

Lemma only_attendees_valid levels l :
  event_types.updateEventSchema levels (Req.only_attendees l)
  = ZOk (Req.only_attendees l).
Proof. reflexivity. Qed.

Lemma set_attendees stamp l ev :
  attendees (Collection.set_fields stamp (Req.only_attendees l) ev) = l
  /\ capacity (Collection.set_fields stamp (Req.only_attendees l) ev) = capacity ev
  /\ _id (Collection.set_fields stamp (Req.only_attendees l) ev) = _id ev.
Proof. done. Qed.

(** ** Join and leave *)

Lemma join_connected levels db eventId userId :
  Collection.outage db = None ->
  EventController.join (eventModel levels) eventId userId db
  = match Collection.docs db !! eventId with
    | None => (Returned (inl (fail NotFound "Event not found")), db)
    | Some ev =>
      if bool_decide (userId ∈ attendees ev)
      then (Returned (inl (fail Conflict "User already joined the event")), db)
      else if capacity ev <=? Z.of_nat (length (attendees ev))
      then (Returned (inl (fail Conflict "Event is at full capacity")), db)
      else
        let ev' := Collection.set_fields (Collection.now db)
                     (Req.only_attendees (attendees ev ++ [userId])) ev in
        (Returned (inr ev'),
         Collection.with_docs db (<[eventId := ev']> (Collection.docs db)))
    end.
Proof.
  intros up. unfold EventController.join, bind.
  rewrite findById_connected by done.
  destruct (Collection.docs db !! eventId) as [ev|] eqn:Hev; [|done].
  case_bool_decide; [done|].
  destruct (capacity ev <=? _); [done|].
  rewrite (update_connected levels db up eventId _ _ (only_attendees_valid _ _)).
  by rewrite Hev.
Qed.

(** C1. On a connected collection, [join(eventId, userId)] fails with
    NotFound (404, "Event not found") when no event has the identifier;
    otherwise with Conflict (400, "User already joined the event") when
    the user is among the attendees; otherwise with Conflict (400,
    "Event is at full capacity") when the attendees are at least as many
    as the capacity; otherwise it stores the event with the user appended
    to its attendees, so that a join at capacity-1 attendees succeeds and
    leaves exactly capacity of them.  After a failure the store is as it
    was; after a success the store holds the new event under the
    identifier, [findById] returns it, and no other event has changed. *)
Theorem join_rules (levels : list string) (db : Collection.t)
    (eventId userId : ObjectId) :
  Collection.outage db = None ->
  let joined := EventController.join (eventModel levels) eventId userId db in
  (Collection.docs db !! eventId = None ->
     joined = (Returned (inl (fail NotFound "Event not found")), db))
  /\ (forall ev, Collection.docs db !! eventId = Some ev ->
        userId ∈ attendees ev ->
        joined
        = (Returned (inl (fail Conflict "User already joined the event")), db))
  /\ (forall ev, Collection.docs db !! eventId = Some ev ->
        userId ∉ attendees ev ->
        capacity ev <= Z.of_nat (length (attendees ev)) ->
        joined
        = (Returned (inl (fail Conflict "Event is at full capacity")), db))
  /\ (forall ev, Collection.docs db !! eventId = Some ev ->
        userId ∉ attendees ev ->
        Z.of_nat (length (attendees ev)) < capacity ev ->
        exists ev',
          joined
          = (Returned (inr ev'),
             Collection.with_docs db (<[eventId := ev']> (Collection.docs db)))
          /\ attendees ev' = (attendees ev ++ [userId])%list
          /\ capacity ev' = capacity ev
          /\ (Z.of_nat (length (attendees ev)) = capacity ev - 1 ->
              Z.of_nat (length (attendees ev')) = capacity ev')
          /\ Collection.docs (snd joined) !! eventId = Some ev'
          /\ Gateway.findById (eventModel levels) eventId (snd joined)
             = (Returned (Some ev'), snd joined)
          /\ (forall other, other ≠ eventId ->
                Collection.docs (snd joined) !! other
                = Collection.docs db !! other))
  /\ http_status NotFound = 404
  /\ http_status Conflict = 400.
Proof.
  intros up joined. subst joined. rewrite join_connected by done.
  split_and!; [| | | |reflexivity..].
  - by intros ->.
  - intros ev -> Hin. by rewrite bool_decide_eq_true_2.
  - intros ev -> Hout Hfull. rewrite bool_decide_eq_false_2 by done.
    by rewrite (proj2 (Z.leb_le _ _) Hfull).
  - intros ev -> Hout Hroom. rewrite bool_decide_eq_false_2 by done.
    rewrite (proj2 (Z.leb_gt _ _) Hroom). cbv zeta.
    eexists. split; [reflexivity|].
    destruct (set_attendees (Collection.now db)
                (attendees ev ++ [userId])%list ev) as (Ha & Hc & _).
    rewrite Ha, Hc. cbn [snd]. split_and!; [done..| | | |].
    + intros Hlen. rewrite length_app. simpl. lia.
    + cbn [Collection.with_docs Collection.docs]. apply lookup_insert_eq.
    + rewrite findById_connected by done.
      cbn [Collection.with_docs Collection.docs]. by rewrite lookup_insert_eq.
    + intros other Hne. cbn [Collection.with_docs Collection.docs].
      by apply lookup_insert_ne.
Qed.

Lemma join_rules_witness :
  Collection.outage (sample_db [sample_event 6%N 300 1 []] None) = None
  /\ exists ev',
       fst (EventController.join (eventModel SKILL_LEVELS) 6%N 2%N
              (sample_db [sample_event 6%N 300 1 []] None))
       = Returned (inr ev')
       /\ attendees ev' = [2%N]
       /\ Z.of_nat (length (attendees ev')) = capacity ev'
       /\ Collection.docs
            (snd (EventController.join (eventModel SKILL_LEVELS) 6%N 2%N
                    (sample_db [sample_event 6%N 300 1 []] None))) !! 6%N
          = Some ev'.
Proof.
  split; [reflexivity|].
  destruct (join_rules SKILL_LEVELS (sample_db [sample_event 6%N 300 1 []] None)
              6%N 2%N eq_refl) as (_ & _ & _ & Hjoin & _).
  destruct (Hjoin (sample_event 6%N 300 1 []))
    as (ev' & Hrun & Ha & Hc & Hlen & Hstored & _).
  - reflexivity.
  - by intros ?%elem_of_nil.
  - reflexivity.
  - exists ev'. rewrite Hrun. split; [reflexivity|]. split; [exact Ha|].
    split; [apply Hlen; reflexivity|]. rewrite Hrun in Hstored. exact Hstored.
Defined.

Lemma leave_connected levels db eventId userId :
  Collection.outage db = None ->
  EventController.leave (eventModel levels) eventId userId db
  = match Collection.docs db !! eventId with
    | None => (Returned (inl (fail NotFound "Event not found")), db)
    | Some ev =>
      if bool_decide (userId ∈ attendees ev)
      then
        let ev' := Collection.set_fields (Collection.now db)
                     (Req.only_attendees
                        (filter (fun a => a ≠ userId) (attendees ev))) ev in
        (Returned (inr ev'),
         Collection.with_docs db (<[eventId := ev']> (Collection.docs db)))
      else
        (Returned (inl (fail Conflict "User is not an attendee of the event")),
         db)
    end.
Proof.
  intros up. unfold EventController.leave, bind.
  rewrite findById_connected by done.
  destruct (Collection.docs db !! eventId) as [ev|] eqn:Hev; [|done].
  case_bool_decide; [|done]. cbn [negb].
  rewrite (update_connected levels db up eventId _ _ (only_attendees_valid _ _)).
  by rewrite Hev.
Qed.

Lemma count_occ_filter_other (u a : ObjectId) (l : list ObjectId) :
  a ≠ u ->
  count_occ N.eq_dec (filter (fun b => b ≠ u) l) a = count_occ N.eq_dec l a.
Proof.
  intros Hne. induction l as [|b l IH]; [done|].
  rewrite filter_cons. case_decide as Hb; simpl.
  - destruct (N.eq_dec b a); by rewrite IH.
  - destruct (N.eq_dec b a) as [->|]; [|done].
    by destruct Hb.
Qed.

(** C2. On a connected collection, [leave(eventId, userId)] fails with
    NotFound (404) when no event has the identifier, and with Conflict
    (400, "User is not an attendee of the event") when the user is not
    among the attendees; otherwise it stores the event with exactly the
    entries equal to the user removed: the others stay, as many times and
    in the order they had.  After a failure the store is as it was; after
    a success the store holds the new event under the identifier,
    [findById] returns it, and no other event has changed. *)
Theorem leave_rules (levels : list string) (db : Collection.t)
    (eventId userId : ObjectId) :
  Collection.outage db = None ->
  let left := EventController.leave (eventModel levels) eventId userId db in
  (Collection.docs db !! eventId = None ->
     left = (Returned (inl (fail NotFound "Event not found")), db))
  /\ (forall ev, Collection.docs db !! eventId = Some ev ->
        userId ∉ attendees ev ->
        left
        = (Returned
             (inl (fail Conflict "User is not an attendee of the event")), db))
  /\ (forall ev, Collection.docs db !! eventId = Some ev ->
        userId ∈ attendees ev ->
        exists ev',
          left
          = (Returned (inr ev'),
             Collection.with_docs db (<[eventId := ev']> (Collection.docs db)))
          /\ attendees ev' = filter (fun a => a ≠ userId) (attendees ev)
          /\ (userId ∉ attendees ev')
          /\ (forall a, a ≠ userId ->
                count_occ N.eq_dec (attendees ev') a
                = count_occ N.eq_dec (attendees ev) a)
          /\ (attendees ev') `sublist_of` (attendees ev)
          /\ Collection.docs (snd left) !! eventId = Some ev'
          /\ Gateway.findById (eventModel levels) eventId (snd left)
             = (Returned (Some ev'), snd left)
          /\ (forall other, other ≠ eventId ->
                Collection.docs (snd left) !! other
                = Collection.docs db !! other))
  /\ http_status NotFound = 404
  /\ http_status Conflict = 400.
Proof.
  intros up left. subst left. rewrite leave_connected by done.
  split_and!; [| | |reflexivity..].
  - by intros ->.
  - intros ev -> Hout. by rewrite bool_decide_eq_false_2.
  - intros ev -> Hin. rewrite bool_decide_eq_true_2 by done. cbv zeta.
    eexists. split; [reflexivity|].
    destruct (set_attendees (Collection.now db)
                (filter (fun a => a ≠ userId) (attendees ev)) ev) as (-> & _).
    cbn [snd]. split_and!.
    + done.
    + rewrite list_elem_of_filter. by intros [Hne _].
    + intros a Hne. by apply count_occ_filter_other.
    + apply sublist_filter.
    + cbn [Collection.with_docs Collection.docs]. apply lookup_insert_eq.
    + rewrite findById_connected by done.
      cbn [Collection.with_docs Collection.docs]. by rewrite lookup_insert_eq.
    + intros other Hne. cbn [Collection.with_docs Collection.docs].
      by apply lookup_insert_ne.
Qed.

Lemma leave_rules_witness :
  Collection.outage (sample_db [sample_event 6%N 300 5 [3; 2; 4; 2]%N] None)
  = None
  /\ exists ev',
       fst (EventController.leave (eventModel SKILL_LEVELS) 6%N 2%N
              (sample_db [sample_event 6%N 300 5 [3; 2; 4; 2]%N] None))
       = Returned (inr ev')
       /\ attendees ev' = [3; 4]%N
       /\ Collection.docs
            (snd (EventController.leave (eventModel SKILL_LEVELS) 6%N 2%N
                    (sample_db [sample_event 6%N 300 5 [3; 2; 4; 2]%N] None)))
            !! 6%N
          = Some ev'.
Proof.
  split; [reflexivity|].
  destruct (leave_rules SKILL_LEVELS
              (sample_db [sample_event 6%N 300 5 [3; 2; 4; 2]%N] None)
              6%N 2%N eq_refl) as (_ & _ & Hleave & _).
  destruct (Hleave (sample_event 6%N 300 5 [3; 2; 4; 2]%N))
    as (ev' & Hrun & Ha & _ & _ & _ & Hstored & _).
  - reflexivity.
  - by repeat constructor.
  - exists ev'. rewrite Hrun. split; [reflexivity|].
    split; [rewrite Ha; reflexivity|]. rewrite Hrun in Hstored. exact Hstored.
Defined.

(** C4. Whatever the gateway: when [findById] returns the event, the
    checks of join (of leave) pass and the following [update] returns
    null, join (leave) fails with PersistenceError "Failed to update
    event", which is answered with status 500. *)
Theorem vanished_event_fails_update {St : Type} (g : Gateway.t St)
    (eventId userId : ObjectId) (ev : IEvent) (s s1 s2 : St) :
  Gateway.findById g eventId s = (Returned (Some ev), s1) ->
  let failed : Outcome (Answer IEvent) * St :=
    (Returned (inl (fail PersistenceError "Failed to update event")), s2) in
  (userId ∉ attendees ev ->
   Z.of_nat (length (attendees ev)) < capacity ev ->
   Gateway.update g eventId
     (Req.only_attendees (attendees ev ++ [userId])) s1 = (Returned None, s2) ->
   EventController.join g eventId userId s = failed)
  /\ (userId ∈ attendees ev ->
      Gateway.update g eventId
        (Req.only_attendees (filter (fun a => a ≠ userId) (attendees ev))) s1
      = (Returned None, s2) ->
      EventController.leave g eventId userId s = failed)
  /\ failure_response (fst failed) = Some (500, "Failed to update event").
Proof.
  intros Hload failed. subst failed. split_and!; [| |reflexivity].
  - intros Hout Hroom Hupd. unfold EventController.join, bind.
    rewrite Hload, bool_decide_eq_false_2 by done.
    by rewrite (proj2 (Z.leb_gt _ _) Hroom), Hupd.
  - intros Hin Hupd. unfold EventController.leave, bind.
    rewrite Hload, bool_decide_eq_true_2 by done. cbn [negb].
    by rewrite Hupd.
Qed.

Lemma vanished_event_fails_update_witness :
  Gateway.findById (deleted_after_load (eventModel SKILL_LEVELS)) 6%N db1
  = (Returned (Some (sample_event 6%N 300 1 [])),
     Collection.with_docs db1 (base.delete 6%N (Collection.docs db1)))
  /\ failure_response
       (fst (EventController.join (deleted_after_load (eventModel SKILL_LEVELS))
               6%N 2%N db1))
     = Some (500, "Failed to update event").
Proof.
  split; [reflexivity|].
  destruct (vanished_event_fails_update
              (deleted_after_load (eventModel SKILL_LEVELS)) 6%N 2%N
              (sample_event 6%N 300 1 []) db1
              (Collection.with_docs db1 (base.delete 6%N (Collection.docs db1)))
              (Collection.with_docs db1 (base.delete 6%N (Collection.docs db1)))
              eq_refl) as (Hjoin & _ & Hstatus).
  rewrite Hjoin; [exact Hstatus| |reflexivity|reflexivity].
  by intros ?%elem_of_nil.
Defined.

(** ** Malformed identifiers *)

(** C8. When the [id] path parameter of GET /events/:id or of DELETE
    /events/:id is not a well-formed object identifier, the handler
    answers 400 "Invalid event id" and calls no method of the gateway:
    the store is as it was and the spies have recorded nothing more. *)
Theorem malformed_id_never_reaches_gateway {St : Type} (g : Gateway.t St)
    (isValidObjectId : string -> bool) (toObjectId : string -> ObjectId)
    (id : string) (s : St) (calls : list Gateway.Call) :
  isValidObjectId id = false ->
  EventController.getEventById (Gateway.spyOn g) isValidObjectId toObjectId id
    (s, calls)
  = (Returned (inl (fail ValidationError "Invalid event id")), (s, calls))
  /\ EventController.deleteEvent (Gateway.spyOn g) isValidObjectId toObjectId id
       (s, calls)
     = (Returned (inl (fail ValidationError "Invalid event id")), (s, calls))
  /\ EventController.getEventById g isValidObjectId toObjectId id s
     = (Returned (inl (fail ValidationError "Invalid event id")), s)
  /\ EventController.deleteEvent g isValidObjectId toObjectId id s
     = (Returned (inl (fail ValidationError "Invalid event id")), s)
  /\ http_status ValidationError = 400.
Proof.
  intros Hbad.
  unfold EventController.getEventById, EventController.deleteEvent.
  rewrite Hbad. by split_and!.
Qed.

Lemma malformed_id_never_reaches_gateway_witness :
  isHexObjectId "invalid-id" = false
  /\ EventController.getEventById (Gateway.spyOn (eventModel SKILL_LEVELS))
       isHexObjectId hexObjectId "invalid-id" (db1, [])
     = (Returned (inl (fail ValidationError "Invalid event id")), (db1, [])).
Proof.
  split; [reflexivity|].
  exact (proj1 (malformed_id_never_reaches_gateway (eventModel SKILL_LEVELS)
                  isHexObjectId hexObjectId "invalid-id" db1 [] eq_refl)).
Defined.

(** ** Validation in the gateway *)

Section Validation.
Context {St : Type}.
Variable event : mongoose.Model St.
Variable schema : Req.t -> ZodResult Req.t.

Lemma create_rejected p issues s :
  schema p = ZErr issues ->
  EventModel.create event schema p s
  = (Thrown (Error "Invalid update data"), s).
Proof. intros H. run_async. by rewrite H. Qed.

Lemma update_rejected id p issues s :
  schema p = ZErr issues ->
  EventModel.update event schema id p s
  = (Thrown (Error "Invalid update data"), s).
Proof. intros H. run_async. by rewrite H. Qed.

Lemma create_accepted p v s :
  schema p = ZOk v ->
  EventModel.create event schema p s
  = match mongoose.create event v s with
    | (Returned ev, s') => (Returned ev, s')
    | (Thrown e, s') =>
      (Thrown (Error (if instanceof_ZodError e then "Invalid update data"
                      else "Failed to create event")), s')
    end.
Proof.
  intros H. run_async. rewrite H.
  destruct (mongoose.create event v s) as [[ev|e] s']; [done|].
  by destruct (instanceof_ZodError e).
Qed.

Lemma update_accepted id p v s :
  schema p = ZOk v ->
  EventModel.update event schema id p s
  = match mongoose.findByIdAndUpdate event id v s with
    | (Returned updated, s') => (Returned updated, s')
    | (Thrown e, s') =>
      (Thrown (Error (if instanceof_ZodError e then "Invalid update data"
                      else "Failed to update event")), s')
    end.
Proof.
  intros H. run_async. rewrite H.
  destruct (mongoose.findByIdAndUpdate event id v s) as [[ev|e] s']; [done|].
  by destruct (instanceof_ZodError e).
Qed.
End Validation.

Lemma verdict_issues issues p :
  issues ≠ [] -> event_types.verdict issues p = ZErr issues.
Proof. by destruct issues. Qed.

Lemma violation_has_issue levels p :
  violates_rule p -> event_types.field_issues levels p ≠ [].
Proof.
  intros Hbad Hnone.
  apply app_eq_nil in Hnone as [Htitle Hnone].
  apply app_eq_nil in Hnone as [Hdesc Hnone].
  apply app_eq_nil in Hnone as [Hcap _].
  destruct Hbad as [Ht|[(c & Hc & Hle)|[(t & Ht & Hlong)|Hd]]].
  - by rewrite Ht in Htitle.
  - rewrite Hc in Hcap. simpl in Hcap.
    by rewrite (proj2 (Z.leb_gt 1 c)) in Hcap by lia.
  - rewrite Ht in Htitle. simpl in Htitle. unfold event_types.len in Htitle.
    rewrite (proj2 (Z.leb_gt _ 100) Hlong), andb_false_r in Htitle. done.
  - by rewrite Hd in Hdesc.
Qed.

(** C3. A payload that breaks a rule of the schema (empty title,
    capacity at most 0, title longer than 100 characters, empty
    description) makes [EventModel.create] and [EventModel.update] throw
    the validation error before the driver is called: whatever the driver
    and the state of the store, the store is left as it was. *)
Theorem invalid_payload_rejected_before_write {St : Type}
    (event : mongoose.Model St) (levels : list string)
    (eventId : ObjectId) (p : Req.t) (s : St) :
  violates_rule p ->
  EventModel.create event (event_types.createEventSchema levels) p s
  = (Thrown (Error "Invalid update data"), s)
  /\ EventModel.update event (event_types.updateEventSchema levels) eventId p s
     = (Thrown (Error "Invalid update data"), s).
Proof.
  intros Hbad%(violation_has_issue levels). split.
  - eapply create_rejected, verdict_issues.
    intros [_ ?]%app_eq_nil. done.
  - by eapply update_rejected, verdict_issues.
Qed.

Lemma invalid_payload_rejected_before_write_witness :
  violates_rule negative_capacity
  /\ EventModel.create counting (event_types.createEventSchema SKILL_LEVELS)
       negative_capacity 0%nat
     = (Thrown (Error "Invalid update data"), 0%nat)
  /\ EventModel.update counting (event_types.updateEventSchema SKILL_LEVELS)
       6%N negative_capacity 0%nat
     = (Thrown (Error "Invalid update data"), 0%nat).
Proof.
  assert (violates_rule negative_capacity) as Hbad.
  { right. left. exists (-5). split; [reflexivity|lia]. }
  split; [exact Hbad|].
  exact (invalid_payload_rejected_before_write counting SKILL_LEVELS
           6%N negative_capacity 0%nat Hbad).
Defined.

(** C9. A payload the create schema rejects makes [EventModel.create]
    throw an error with the message "Invalid update data", the message
    of the update path; "Failed to create event" is thrown only when the
    schema accepted the payload and the driver's [create] failed. *)
Theorem create_rejection_message {St : Type} (event : mongoose.Model St)
    (createEventSchema updateEventSchema : Req.t -> ZodResult Req.t) :
  (forall p issues s,
      createEventSchema p = ZErr issues ->
      EventModel.create event createEventSchema p s
      = (Thrown (Error "Invalid update data"), s))
  /\ (forall eventId p issues s,
        updateEventSchema p = ZErr issues ->
        EventModel.update event updateEventSchema eventId p s
        = (Thrown (Error "Invalid update data"), s))
  /\ (forall p s s',
        EventModel.create event createEventSchema p s
        = (Thrown (Error "Failed to create event"), s') ->
        exists v e,
          createEventSchema p = ZOk v
          /\ mongoose.create event v s = (Thrown e, s')
          /\ instanceof_ZodError e = false).
Proof.
  split_and!.
  - intros. by eapply create_rejected.
  - intros. by eapply update_rejected.
  - intros p s s' Hrun.
    destruct (createEventSchema p) as [v|issues] eqn:Hv.
    + rewrite (create_accepted _ _ _ _ _ Hv) in Hrun.
      destruct (mongoose.create event v s) as [[ev|e] s1] eqn:Hc; [done|].
      exists v, e. destruct (instanceof_ZodError e); [done|].
      by injection Hrun as ->.
    + by rewrite (create_rejected _ _ _ _ _ Hv) in Hrun.
Qed.

Lemma create_rejection_message_witness :
  event_types.createEventSchema SKILL_LEVELS empty_title
  = ZErr ["title: must be between 1 and 100 characters"]
  /\ EventModel.create (Collection.Event SKILL_LEVELS)
       (event_types.createEventSchema SKILL_LEVELS) empty_title db1
     = (Thrown (Error "Invalid update data"), db1).
Proof.
  split; [reflexivity|].
  exact (proj1 (create_rejection_message (Collection.Event SKILL_LEVELS)
                  (event_types.createEventSchema SKILL_LEVELS)
                  (event_types.updateEventSchema SKILL_LEVELS))
           empty_title ["title: must be between 1 and 100 characters"] db1
           eq_refl).
Defined.

(** ** Update, delete and list *)

Section UserValidation.
Context {St IUser UserData : Type}.
Variable findByIdAndUpdate : ObjectId -> UserData -> Async St (option IUser).
Variable schema : UserData -> ZodResult UserData.

Lemma user_update_accepted userId p v s :
  schema p = ZOk v ->
  UserModel.update findByIdAndUpdate schema userId p s
  = match findByIdAndUpdate userId v s with
    | (Returned updated, s') => (Returned updated, s')
    | (Thrown e, s') => (Thrown (Error "Failed to update user"), s')
    end.
Proof.
  intros H. unfold UserModel.update. run_async. rewrite H.
  by destruct (findByIdAndUpdate userId v s) as [[u|e] s'].
Qed.

Lemma user_update_rejected userId p issues s :
  schema p = ZErr issues ->
  UserModel.update findByIdAndUpdate schema userId p s
  = (Thrown (ZodError issues), s).
Proof. intros H. unfold UserModel.update. run_async. by rewrite H. Qed.
End UserValidation.

(** C5. The [update] of a gateway, [EventModel.update] and the update of
    the user gateway alike, with a payload its schema accepts returns
    null, without throwing, when the driver finds no record with the
    identifier, as on a connected events collection that holds none; it
    throws "Failed to update event" ("Failed to update user") only when
    the driver's operation failed, as on a collection whose connection is
    down. *)
Theorem update_of_missing_record :
  (forall St (event : mongoose.Model St) updateEventSchema eventId p v s s',
      updateEventSchema p = ZOk v ->
      mongoose.findByIdAndUpdate event eventId v s = (Returned None, s') ->
      EventModel.update event updateEventSchema eventId p s
      = (Returned None, s'))
  /\ (forall St (event : mongoose.Model St) updateEventSchema eventId p s s',
        EventModel.update event updateEventSchema eventId p s
        = (Thrown (Error "Failed to update event"), s') ->
        exists v e,
          updateEventSchema p = ZOk v
          /\ mongoose.findByIdAndUpdate event eventId v s = (Thrown e, s'))
  /\ (forall levels db eventId p v,
        event_types.updateEventSchema levels p = ZOk v ->
        Collection.outage db = None ->
        Collection.docs db !! eventId = None ->
        Gateway.update (eventModel levels) eventId p db = (Returned None, db))
  /\ (forall levels db eventId p v reason,
        event_types.updateEventSchema levels p = ZOk v ->
        Collection.outage db = Some reason ->
        Gateway.update (eventModel levels) eventId p db
        = (Thrown (Error "Failed to update event"), db))
  /\ (forall St IUser UserData
             (findByIdAndUpdate : ObjectId -> UserData -> Async St (option IUser))
             updateProfileSchema userId p v s s',
        updateProfileSchema p = ZOk v ->
        findByIdAndUpdate userId v s = (Returned None, s') ->
        UserModel.update findByIdAndUpdate updateProfileSchema userId p s
        = (Returned None, s'))
  /\ (forall St IUser UserData
             (findByIdAndUpdate : ObjectId -> UserData -> Async St (option IUser))
             updateProfileSchema userId p s s',
        UserModel.update findByIdAndUpdate updateProfileSchema userId p s
        = (Thrown (Error "Failed to update user"), s') ->
        exists v e,
          updateProfileSchema p = ZOk v
          /\ findByIdAndUpdate userId v s = (Thrown e, s'))
  /\ (forall St IUser UserData
             (findByIdAndUpdate : ObjectId -> UserData -> Async St (option IUser))
             updateProfileSchema userId p v e s s',
        updateProfileSchema p = ZOk v ->
        findByIdAndUpdate userId v s = (Thrown e, s') ->
        UserModel.update findByIdAndUpdate updateProfileSchema userId p s
        = (Thrown (Error "Failed to update user"), s')).
Proof.
  split_and!.
  - intros St event schema id p v s s' Hv Hnone.
    by rewrite (update_accepted _ _ _ _ _ _ Hv), Hnone.
  - intros St event schema id p s s' Hrun.
    destruct (schema p) as [v|issues] eqn:Hv.
    + rewrite (update_accepted _ _ _ _ _ _ Hv) in Hrun.
      destruct (mongoose.findByIdAndUpdate event id v s) as [[ev|e] s1]
        eqn:Hc; [done|].
      exists v, e. split; [done|]. congruence.
    + by rewrite (update_rejected _ _ _ _ _ _ Hv) in Hrun.
  - intros levels db id p v Hv Hup Hnone.
    by rewrite (update_connected _ _ Hup _ _ _ Hv), Hnone.
  - intros levels db id p v reason Hv Hdown.
    cbn [eventModel Gateway.update].
    rewrite (update_accepted _ _ _ _ _ _ Hv).
    cbn [Collection.Event mongoose.findByIdAndUpdate].
    unfold Collection.connected. by rewrite Hdown.
  - intros St IUser UserData op schema id p v s s' Hv Hnone.
    by rewrite (user_update_accepted _ _ _ _ _ _ Hv), Hnone.
  - intros St IUser UserData op schema id p s s' Hrun.
    destruct (schema p) as [v|issues] eqn:Hv.
    + rewrite (user_update_accepted _ _ _ _ _ _ Hv) in Hrun.
      destruct (op id v s) as [[u|e] s1] eqn:Hc; [done|].
      exists v, e. split; [done|]. congruence.
    + by rewrite (user_update_rejected _ _ _ _ _ _ Hv) in Hrun.
  - intros St IUser UserData op schema id p v e s s' Hv Hfail.
    by rewrite (user_update_accepted _ _ _ _ _ _ Hv), Hfail.
Qed.

Lemma update_of_missing_record_witness :
  event_types.updateEventSchema SKILL_LEVELS (Req.only_attendees [2%N])
  = ZOk (Req.only_attendees [2%N])
  /\ Collection.outage db1 = None
  /\ Collection.docs db1 !! 7%N = None
  /\ Gateway.update (eventModel SKILL_LEVELS) 7%N (Req.only_attendees [2%N]) db1
     = (Returned None, db1)
  /\ rename_user 7%N "Updated Name" {[ 1%N := "Test User" ]}
     = (Returned None, {[ 1%N := "Test User" ]})
  /\ UserModel.update rename_user any_name 7%N "Updated Name"
       {[ 1%N := "Test User" ]}
     = (Returned None, {[ 1%N := "Test User" ]}).
Proof.
  split_and!; [reflexivity..| |reflexivity|].
  - destruct update_of_missing_record as (_ & _ & Habsent & _).
    exact (Habsent SKILL_LEVELS db1 7%N (Req.only_attendees [2%N])
             (Req.only_attendees [2%N]) eq_refl eq_refl eq_refl).
  - destruct update_of_missing_record as (_ & _ & _ & _ & Huser & _).
    exact (Huser _ _ _ rename_user any_name 7%N "Updated Name" "Updated Name"
             {[ 1%N := "Test User" ]} {[ 1%N := "Test User" ]}
             eq_refl eq_refl).
Defined.

Lemma delete_throws {St} (event : mongoose.Model St) eventId s e s' :
  EventModel.delete event eventId s = (Thrown e, s') ->
  e = Error "Failed to delete event"
  /\ exists e0, mongoose.findByIdAndDelete event eventId s = (Thrown e0, s').
Proof.
  run_async.
  destruct (mongoose.findByIdAndDelete event eventId s) as [[ev|e0] s1];
    [done|].
  intros [= <- <-]. eauto.
Qed.

(** C6. On a connected collection [delete(id)] removes the record with
    the identifier if there is one and does not throw when there is none:
    a second [delete(id)] returns as well and changes nothing, and
    [findById(id)] then returns null.  Whatever the driver, [delete]
    throws only when the driver's operation failed, and then "Failed to
    delete event". *)
Theorem delete_idempotent :
  (forall levels db eventId,
      Collection.outage db = None ->
      let g := eventModel levels in
      let db' :=
        Collection.with_docs db (base.delete eventId (Collection.docs db)) in
      Gateway.delete g eventId db = (Returned tt, db')
      /\ Collection.docs db' !! eventId = None
      /\ (forall other, other ≠ eventId ->
            Collection.docs db' !! other = Collection.docs db !! other)
      /\ (Collection.docs db !! eventId = None -> db' = db)
      /\ Gateway.delete g eventId db' = (Returned tt, db')
      /\ Gateway.findById g eventId db' = (Returned None, db'))
  /\ (forall St (event : mongoose.Model St) eventId s e s',
        EventModel.delete event eventId s = (Thrown e, s') ->
        e = Error "Failed to delete event"
        /\ exists e0,
            mongoose.findByIdAndDelete event eventId s = (Thrown e0, s')).
Proof.
  split; [|intros; by eapply delete_throws].
  intros levels db id Hup g db'.
  assert (Collection.outage db' = None) as Hup' by done.
  assert (Collection.docs db' !! id = None) as Hgone
    by apply lookup_delete_eq.
  subst g. rewrite !delete_connected, findById_connected by done.
  split_and!.
  - done.
  - done.
  - intros other Hne. by apply lookup_delete_ne.
  - intros Habsent. subst db'. rewrite delete_id by done.
    apply with_docs_same.
  - f_equal. rewrite delete_id by done. apply with_docs_same.
  - by rewrite Hgone.
Qed.

Lemma delete_idempotent_witness :
  Collection.outage db1 = None
  /\ fst (Gateway.delete (eventModel SKILL_LEVELS) 6%N db1) = Returned tt
  /\ Collection.docs
       (snd (Gateway.delete (eventModel SKILL_LEVELS) 6%N db1)) !! 6%N = None.
Proof.
  split; [reflexivity|].
  destruct (proj1 delete_idempotent SKILL_LEVELS db1 6%N eq_refl)
    as (Hrun & Hgone & _).
  rewrite Hrun. split; [reflexivity|exact Hgone].
Defined.

#[global] Instance by_date_total d : Total (Collection.by_date d).
Proof. intros a b. destruct d; simpl; lia. Qed.

#[global] Instance by_date_transitive d : Transitive (Collection.by_date d).
Proof. intros a b c. destruct d; simpl; lia. Qed.

Lemma findAll_throws {St} (event : mongoose.Model St) s :
  forall e s',
    EventModel.findAll event s = (Thrown e, s') <->
    e = Error "Failed to fetch events"
    /\ exists e0, mongoose.find_sort_exec event (-1) s = (Thrown e0, s').
Proof.
  intros e s'. run_async.
  destruct (mongoose.find_sort_exec event (-1) s) as [[l|e0] s1].
  - split; [done|]. by intros (_ & e0 & ?).
  - split.
    + intros [= <- <-]. eauto.
    + intros (-> & e1 & [= _ ->]). done.
Qed.



(** ** asyncHandler *)

(** C10. When [fn] returns a promise that rejects with [e], the handler
    made by [asyncHandler] returns and [next] has been called with [e],
    once, after what [fn] and its promise did; when the promise fulfils,
    or [fn] returns no promise, [next] is not called.  When [fn] throws
    instead of returning, the handler throws the same exception and does
    not call [next]. *)
Theorem asyncHandler_forwards_rejection {W Request Response : Type}
    (fn : express.Handler W Request Response (express.Result W))
    (req : Request) (res : Response) (next : express.NextFunction W) (w : W) :
  (forall p w1 e w2,
      fn req res next w = (Returned (express.promise p), w1) ->
      p w1 = (express.Rejected e, w2) ->
      express.asyncHandler fn req res next w = (Returned tt, next e w2))
  /\ (forall p w1 w2,
        fn req res next w = (Returned (express.promise p), w1) ->
        p w1 = (express.Fulfilled, w2) ->
        express.asyncHandler fn req res next w = (Returned tt, w2))
  /\ (forall w1,
        fn req res next w = (Returned express.undefined, w1) ->
        express.asyncHandler fn req res next w = (Returned tt, w1))
  /\ (forall e w1,
        fn req res next w = (Thrown e, w1) ->
        express.asyncHandler fn req res next w = (Thrown e, w1)).
Proof.
  unfold express.asyncHandler, bind. split_and!.
  - intros p w1 e w2 -> Hp. cbn. by rewrite Hp.
  - intros p w1 w2 -> Hp. cbn. by rewrite Hp.
  - by intros w1 ->.
  - by intros e w1 ->.
Qed.

Lemma asyncHandler_forwards_rejection_witness :
  express.asyncHandler
    (fun (req res : unit) (next : express.NextFunction (list Exn)) =>
       ret (express.promise (fun w => (express.Rejected (Error "boom"), w))))
    tt tt (fun error calls => calls ++ [error])%list []
  = (Returned tt, [Error "boom"]).
Proof.
  exact (proj1 (asyncHandler_forwards_rejection
                  (fun (req res : unit) (next : express.NextFunction (list Exn)) =>
                     ret (express.promise
                            (fun w => (express.Rejected (Error "boom"), w))))
                  tt tt (fun error calls => calls ++ [error])%list [])
           _ [] (Error "boom") [] eq_refl eq_refl).
Defined.

(** ** The tests of the repository, replayed *)

Example create_empty_title :
  fst (Gateway.create (eventModel SKILL_LEVELS) empty_title db1)
  = Thrown (Error "Invalid update data").
Proof. reflexivity. Qed.

Example create_negative_capacity :
  fst (Gateway.create (eventModel SKILL_LEVELS) negative_capacity db1)
  = Thrown (Error "Invalid update data").
Proof. reflexivity. Qed.

Example create_capacity_of_0 :
  fst (Gateway.create (eventModel SKILL_LEVELS)
         (with_capacity 0 negative_capacity) db1)
  = Thrown (Error "Invalid update data").
Proof. reflexivity. Qed.

Example create_title_exceeding_max_length :
  fst (Gateway.create (eventModel SKILL_LEVELS)
         (with_title (repeat_A 101) scenario_event) db1)
  = Thrown (Error "Invalid update data").
Proof. vm_compute. reflexivity. Qed.

Example update_empty_title :
  Gateway.update (eventModel SKILL_LEVELS) 6%N
    (with_title "" (Req.only_attendees [])) db1
  = (Thrown (Error "Invalid update data"), db1).
Proof. reflexivity. Qed.

Example create_database_operation_fails :
  EventModel.create (failing "Database connection lost")
    (event_types.createEventSchema SKILL_LEVELS) scenario_event tt
  = (Thrown (Error "Failed to create event"), tt).
Proof. reflexivity. Qed.

Example update_database_operation_fails :
  EventModel.update (failing "Database connection lost")
    (event_types.updateEventSchema SKILL_LEVELS) 6%N scenario_event tt
  = (Thrown (Error "Failed to update event"), tt).
Proof. reflexivity. Qed.

Example delete_database_operation_fails :
  EventModel.delete (failing "Database connection lost") 6%N tt
  = (Thrown (Error "Failed to delete event"), tt).
Proof. reflexivity. Qed.

Example findById_database_operation_fails :
  EventModel.findById (failing "Database connection lost") 6%N tt
  = (Thrown (Error "Failed to find event"), tt).
Proof. reflexivity. Qed.

Example findAll_database_operation_fails :
  EventModel.findAll (failing "Database connection lost") tt
  = (Thrown (Error "Failed to fetch events"), tt).
Proof. reflexivity. Qed.

(** The scenario of the specification: an event for one attendee is
    created, a first user joins it, a second one finds it full. *)
Example scenario_full_capacity :
  let g := eventModel SKILL_LEVELS in
  let empty := sample_db [] None in
  let created := Gateway.create g scenario_event empty in
  let first := EventController.join g 0%N 2%N (snd created) in
  let second := EventController.join g 0%N 3%N (snd first) in
  _id <$> (match fst created with Returned ev => Some ev | Thrown _ => None end)
  = Some 0%N
  /\ attendees <$> (match fst first with
                    | Returned (inr ev) => Some ev
                    | _ => None
                    end) = Some [2%N]
  /\ failure_response (fst second) = Some (400, "Event is at full capacity").
Proof. vm_compute. by split_and!. Qed.

(** * Further properties of the gateway and of asyncHandler *)

(** ** Errors of the gateway, whatever the driver *)

Lemma findById_returns {St} (event : mongoose.Model St) id s :
  forall r s',
    EventModel.findById event id s = (Returned r, s') <->
    mongoose.findOne event id s = (Returned r, s').
Proof.
  intros r s'. run_async.
  destruct (mongoose.findOne event id s) as [[[ev|]|e0] s1];
    split; intros [= <- <-] || intros [=]; done.
Qed.

Lemma findById_throws {St} (event : mongoose.Model St) id s :
  forall e s',
    EventModel.findById event id s = (Thrown e, s') <->
    e = Error "Failed to find event"
    /\ exists e0, mongoose.findOne event id s = (Thrown e0, s').
Proof.
  intros e s'. run_async.
  destruct (mongoose.findOne event id s) as [[[ev|]|e0] s1].
  - split; [done|]. by intros (_ & e1 & ?).
  - split; [done|]. by intros (_ & e1 & ?).
  - split.
    + intros [= <- <-]. eauto.
    + intros (-> & e1 & [= _ ->]). done.
Qed.

(** X1. [findById] returns just what the driver's [findOne] returns, null
    for a record that is not there, and leaves the store as [findOne]
    left it; it throws exactly when [findOne] throws, and then "Failed to
    find event". *)
Theorem findById_passes_through {St : Type} (event : mongoose.Model St)
    (id : ObjectId) (s s' : St) :
  (forall r,
      EventModel.findById event id s = (Returned r, s') <->
      mongoose.findOne event id s = (Returned r, s'))
  /\ ((exists e0, mongoose.findOne event id s = (Thrown e0, s')) <->
      EventModel.findById event id s
      = (Thrown (Error "Failed to find event"), s'))
  /\ (forall e,
        EventModel.findById event id s = (Thrown e, s') ->
        e = Error "Failed to find event").
Proof.
  split_and!.
  - intros r. apply findById_returns.
  - rewrite findById_throws. split; [eauto|]. by intros [_ Hquery].
  - intros e Hrun. by apply findById_throws in Hrun as [-> _].
Qed.

Lemma findById_passes_through_witness :
  EventModel.findById (Collection.Event SKILL_LEVELS) 7%N db1
  = (Returned None, db1)
  /\ EventModel.findById (failing "Database connection lost") 7%N tt
     = (Thrown (Error "Failed to find event"), tt).
Proof.
  split.
  - apply (proj1 (findById_passes_through (Collection.Event SKILL_LEVELS)
                    7%N db1 db1)). reflexivity.
  - apply (proj1 (proj2 (findById_passes_through
                           (failing "Database connection lost") 7%N tt tt))).
    by exists (Error "Database connection lost").
Defined.

(** X2. No method of the gateway lets a [ZodError] or an error of the
    driver out: whatever the driver and the schemas, what a method throws
    is a plain [Error] with one of its own fixed messages. *)
Theorem gateway_masks_errors {St : Type} (event : mongoose.Model St)
    (createEventSchema updateEventSchema : Req.t -> ZodResult Req.t)
    (e : Exn) (s s' : St) :
  (forall p,
      EventModel.create event createEventSchema p s = (Thrown e, s') ->
      e = Error "Invalid update data" \/ e = Error "Failed to create event")
  /\ (forall id p,
        EventModel.update event updateEventSchema id p s = (Thrown e, s') ->
        e = Error "Invalid update data" \/ e = Error "Failed to update event")
  /\ (forall id,
        EventModel.delete event id s = (Thrown e, s') ->
        e = Error "Failed to delete event")
  /\ (forall id,
        EventModel.findById event id s = (Thrown e, s') ->
        e = Error "Failed to find event")
  /\ (EventModel.findAll event s = (Thrown e, s') ->
      e = Error "Failed to fetch events").
Proof.
  split_and!.
  - intros p Hrun. destruct (createEventSchema p) as [v|issues] eqn:Hv.
    + rewrite (create_accepted _ _ _ _ _ Hv) in Hrun.
      destruct (mongoose.create event v s) as [[ev|e0] s1]; [done|].
      injection Hrun as <- _. destruct (instanceof_ZodError e0); auto.
    + rewrite (create_rejected _ _ _ _ _ Hv) in Hrun.
      injection Hrun as <- _. auto.
  - intros id p Hrun. destruct (updateEventSchema p) as [v|issues] eqn:Hv.
    + rewrite (update_accepted _ _ _ _ _ _ Hv) in Hrun.
      destruct (mongoose.findByIdAndUpdate event id v s) as [[ev|e0] s1];
        [done|].
      injection Hrun as <- _. destruct (instanceof_ZodError e0); auto.
    + rewrite (update_rejected _ _ _ _ _ _ Hv) in Hrun.
      injection Hrun as <- _. auto.
  - intros id Hrun. by apply delete_throws in Hrun as [-> _].
  - intros id Hrun. by apply findById_throws in Hrun as [-> _].
  - intros Hrun. by apply findAll_throws in Hrun as [-> _].
Qed.

Lemma gateway_masks_errors_witness :
  EventModel.update (failing "Database connection lost")
    (event_types.updateEventSchema SKILL_LEVELS) 6%N scenario_event tt
  = (Thrown (Error "Failed to update event"), tt)
  /\ (Error "Failed to update event" = Error "Invalid update data"
      \/ Error "Failed to update event" = Error "Failed to update event").
Proof.
  split; [reflexivity|].
  destruct (gateway_masks_errors (failing "Database connection lost")
              (event_types.createEventSchema SKILL_LEVELS)
              (event_types.updateEventSchema SKILL_LEVELS)
              (Error "Failed to update event") tt tt) as (_ & Hupdate & _).
  exact (Hupdate 6%N scenario_event eq_refl).
Defined.

(** ** asyncHandler adds no exception of its own *)

(** X3. The handler made by [asyncHandler] throws exactly when [fn]
    throws, the same exception in the same state.  When [fn] returns,
    whatever it returns, the handler returns: it never calls [catch] on a
    value that is no promise, and a promise that stays pending leaves
    [next] uncalled. *)
Theorem asyncHandler_throws_with_fn_only {W Request Response : Type}
    (fn : express.Handler W Request Response (express.Result W))
    (req : Request) (res : Response) (next : express.NextFunction W) (w : W) :
  (forall e w',
      express.asyncHandler fn req res next w = (Thrown e, w') <->
      fn req res next w = (Thrown e, w'))
  /\ (forall r w1,
        fn req res next w = (Returned r, w1) ->
        exists w2, express.asyncHandler fn req res next w = (Returned tt, w2))
  /\ (forall p w1 w2,
        fn req res next w = (Returned (express.promise p), w1) ->
        p w1 = (express.Pending, w2) ->
        express.asyncHandler fn req res next w = (Returned tt, w2)).
Proof.
  unfold express.asyncHandler, bind.
  destruct (fn req res next w) as [[[|p]|e0] w1]; cbn; unfold ret.
  - split_and!.
    + intros e w'. by split.
    + intros r w0 _. by eexists.
    + by intros p w0 w2.
  - split_and!.
    + intros e w'. by destruct (p w1) as [[| |] w2].
    + intros r w0 _. destruct (p w1) as [[| |] w2]; by eexists.
    + intros p' w0 w2 [= <- <-] Hp. by rewrite Hp.
  - split_and!; [|by intros|by intros].
    intros e w'. split; by intros [= <- <-].
Qed.

Lemma asyncHandler_throws_with_fn_only_witness :
  express.asyncHandler
    (fun (req res : unit) (next : express.NextFunction (list Exn)) =>
       ret (express.promise (fun w => (express.Pending, w))))
    tt tt (fun error calls => calls ++ [error])%list []
  = (Returned tt, []).
Proof.
  exact (proj2 (proj2 (asyncHandler_throws_with_fn_only
                  (fun (req res : unit) (next : express.NextFunction (list Exn)) =>
                     ret (express.promise (fun w => (express.Pending, w))))
                  tt tt (fun error calls => calls ++ [error])%list []))
           _ [] [] eq_refl eq_refl).
Defined.

(** ** The setter of the string paths *)

Lemma append_cons (c : ascii) (s t : string) :
  String c s +:+ t = String c (s +:+ t).
Proof. reflexivity. Qed.

Lemma append_assoc (s t u : string) : (s +:+ t) +:+ u = s +:+ (t +:+ u).
Proof.
  induction s as [|c s IH]; [done|]. by rewrite !append_cons, IH.
Qed.

Lemma rev_app_append (s1 s2 : string) :
  String.rev_app s1 s2 = String.rev s1 +:+ s2.
Proof.
  unfold String.rev. revert s2.
  induction s1 as [|c s1 IH]; intros s2; [done|].
  cbn [String.rev_app]. rewrite IH, (IH (String c "")).
  by rewrite append_assoc.
Qed.

Lemma rev_cons (c : ascii) (s : string) :
  String.rev (String c s) = String.rev s +:+ String c "".
Proof. unfold String.rev at 1. cbn [String.rev_app]. apply rev_app_append. Qed.

Lemma rev_snoc (c : ascii) (s : string) :
  String.rev (s +:+ String c "") = String c (String.rev s).
Proof.
  induction s as [|d s IH]; [done|].
  by rewrite append_cons, !rev_cons, IH.
Qed.

Lemma trimStart_kept (c : ascii) (x y : string) :
  Collection.is_white_space c = false ->
  Collection.trimStart (x +:+ String c y)
  = Collection.trimStart x +:+ String c y.
Proof.
  intros Hc. induction x as [|d x IH].
  - change ("" +:+ String c y) with (String c y). simpl. by rewrite Hc.
  - rewrite append_cons. simpl. by destruct (Collection.is_white_space d).
Qed.

Lemma trimStart_shape (s : string) :
  Collection.trimStart s = ""
  \/ exists c r, Collection.trimStart s = String c r
                 /\ Collection.is_white_space c = false.
Proof.
  induction s as [|c s IH]; simpl; [by left|].
  destruct (Collection.is_white_space c) eqn:Hc; [done|]. right. eauto.
Qed.

Lemma rev_involutive (s : string) : String.rev (String.rev s) = s.
Proof.
  induction s as [|c s IH]; [done|]. by rewrite rev_cons, rev_snoc, IH.
Qed.

Lemma trimStart_idempotent (s : string) :
  Collection.trimStart (Collection.trimStart s) = Collection.trimStart s.
Proof.
  destruct (trimStart_shape s) as [->|(c & r & -> & Hc)]; [done|].
  simpl. by rewrite Hc.
Qed.

Lemma trim_shape (s : string) :
  Collection.trim s = ""
  \/ exists c r, Collection.trim s = String c r /\ Collection.is_white_space c = false
                 /\ Collection.trimStart (String.rev (Collection.trim s))
                    = String.rev (Collection.trim s).
Proof.
  unfold Collection.trim.
  destruct (trimStart_shape s) as [->|(c & r & -> & Hc)]; [by left|].
  right. rewrite rev_cons, trimStart_kept by done.
  rewrite rev_snoc. exists c, (String.rev (Collection.trimStart (String.rev r))).
  split_and!; [done..|].
  by rewrite rev_cons, rev_involutive, trimStart_kept, trimStart_idempotent.
Qed.

Lemma trim_idempotent (s : string) :
  Collection.trim (Collection.trim s) = Collection.trim s.
Proof.
  destruct (trim_shape s) as [->|(c & r & Hs & Hc & Hend)]; [done|].
  unfold Collection.trim at 1.
  assert (Collection.trimStart (Collection.trim s) = Collection.trim s) as ->.
  { rewrite Hs. simpl. by rewrite Hc. }
  by rewrite Hend, rev_involutive.
Qed.

(** ** Documents made by [create] *)

Lemma eventSchema_inv levels id stamp v ev :
  Collection.eventSchema levels id stamp v = Some ev ->
  exists t d,
    Req.title v = Some t /\ Req.description v = Some d
    /\ Req.date v = Some (date ev) /\ Req.capacity v = Some (capacity ev)
    /\ Req.createdBy v = Some (createdBy ev)
    /\ title ev = Collection.trim t /\ description ev = Collection.trim d
    /\ Collection.within 1 (Some 100) (title ev) = true
    /\ Collection.within 1 None (description ev) = true
    /\ 1 <= capacity ev
    /\ skillLevel ev = Collection.trim <$> Req.skillLevel v
    /\ (forall l, skillLevel ev = Some l -> l ∈ levels)
    /\ location ev = Collection.trim <$> Req.location v
    /\ photo ev = Collection.trim <$> Req.photo v
    /\ latitude ev = Req.latitude v /\ longitude ev = Req.longitude v
    /\ attendees ev = default [] (Req.attendees v)
    /\ _id ev = id /\ createdAt ev = stamp /\ updatedAt ev = stamp.
Proof.
  unfold Collection.eventSchema, Collection.optional_path.
  destruct (Req.title v) as [t|]; [|done].
  destruct (Req.description v) as [d|]; [|done].
  destruct (Req.date v) as [when|]; [|done].
  destruct (Req.capacity v) as [c|]; [|done].
  destruct (Req.createdBy v) as [creator|]; [|done].
  destruct (Req.skillLevel v) as [l|].
  - case_bool_decide as Hl; [|done].
    destruct (Collection.within 1 (Some 100) _) eqn:Ht; [|done].
    destruct (Collection.within 1 None _) eqn:Hd; [|done].
    destruct (1 <=? c) eqn:Hc; [|done]. apply Z.leb_le in Hc.
    intros [= <-]. exists t, d. simpl. split_and!; try done.
    by intros ? [= <-].
  - destruct (Collection.within 1 (Some 100) _) eqn:Ht; [|done].
    destruct (Collection.within 1 None _) eqn:Hd; [|done].
    destruct (1 <=? c) eqn:Hc; [|done]. apply Z.leb_le in Hc.
    intros [= <-]. exists t, d. simpl. by split_and!.
Qed.

Lemma eventSchema_fails levels id stamp v :
  Collection.eventSchema levels id stamp v = None <->
  fails_validators levels v.
Proof.
  unfold Collection.eventSchema, Collection.optional_path, fails_validators.
  destruct (Req.title v) as [t|]; [|split; [by left|done]].
  destruct (Req.description v) as [d|]; [|split; [by right; left|done]].
  destruct (Req.date v) as [when|]; [|split; [by right; right; left|done]].
  destruct (Req.capacity v) as [c|];
    [|split; [by right; right; right; left|done]].
  destruct (Req.createdBy v) as [creator|];
    [|split; [by right; right; right; right; left|done]].
  assert (forall level : option string,
    (if Collection.within 1 (Some 100) (Collection.trim t)
        && Collection.within 1 None (Collection.trim d) && (1 <=? c)
     then Some (mkEvent id (Collection.trim t) (Collection.trim d) when c
                  level (Collection.trim <$> Req.location v) (Req.latitude v)
                  (Req.longitude v) creator (default [] (Req.attendees v))
                  (Collection.trim <$> Req.photo v) stamp stamp)
     else None) = None <->
    Collection.within 1 (Some 100) (Collection.trim t) = false
    \/ Collection.within 1 None (Collection.trim d) = false
    \/ c < 1) as Hbounds.
  { intros level.
    destruct (Collection.within 1 (Some 100) _); [|by split; auto].
    destruct (Collection.within 1 None _); [|by split; auto].
    destruct (Z.leb_spec 1 c); simpl.
    - split; [done|]. intros [?|[?|?]]; [done..|lia].
    - split; auto. }
  destruct (Req.skillLevel v) as [l|].
  - case_bool_decide as Hl.
    + rewrite Hbounds. split.
      * intros [Ht|[Hd|Hc]].
        -- left. by intros ? [= <-].
        -- right; left. by intros ? [= <-].
        -- right; right; right; left. by intros ? [= <-].
      * intros [Ht|[Hd|[?|[Hc|[?|(l' & [= <-] & Hout)]]]]]; try done.
        -- left. by apply Ht.
        -- right; left. by apply Hd.
        -- right; right. by apply Hc.
    + split; [|done]. intros _. do 5 right. eauto.
  - rewrite Hbounds. split.
    + intros [Ht|[Hd|Hc]].
      * left. by intros ? [= <-].
      * right; left. by intros ? [= <-].
      * right; right; right; left. by intros ? [= <-].
    + intros [Ht|[Hd|[?|[Hc|[?|(l' & ? & Hout)]]]]]; try done.
      * left. by apply Ht.
      * right; left. by apply Hd.
      * right; right. by apply Hc.
Qed.

Section OnCollection.
Variable levels : list string.
Variable schema : Req.t -> ZodResult Req.t.

Lemma create_on_collection db p v :
  schema p = ZOk v ->
  Collection.outage db = None ->
  EventModel.create (Collection.Event levels) schema p db
  = match Collection.eventSchema levels (fresh (dom (Collection.docs db)))
            (Collection.now db) v with
    | Some ev =>
      (Returned ev,
       Collection.with_docs db (<[_id ev := ev]> (Collection.docs db)))
    | None => (Thrown (Error "Failed to create event"), db)
    end.
Proof.
  intros Hv Hup. rewrite (create_accepted _ _ _ _ _ Hv).
  cbn [Collection.Event mongoose.create]. unfold Collection.connected.
  rewrite Hup. by destruct (Collection.eventSchema _ _ _ _).
Qed.

Lemma create_returned db p ev db' :
  EventModel.create (Collection.Event levels) schema p db = (Returned ev, db') ->
  exists v,
    schema p = ZOk v
    /\ Collection.outage db = None
    /\ Collection.eventSchema levels (fresh (dom (Collection.docs db)))
         (Collection.now db) v = Some ev
    /\ _id ev = fresh (dom (Collection.docs db))
    /\ Collection.docs db !! _id ev = None
    /\ db' = Collection.with_docs db (<[_id ev := ev]> (Collection.docs db)).
Proof.
  intros Hrun. destruct (schema p) as [v|issues] eqn:Hv.
  - destruct (Collection.outage db) as [reason|] eqn:Hup.
    + rewrite (create_accepted _ _ _ _ _ Hv) in Hrun.
      cbn [Collection.Event mongoose.create] in Hrun.
      unfold Collection.connected in Hrun. by rewrite Hup in Hrun.
    + rewrite (create_on_collection _ _ _ Hv Hup) in Hrun.
      destruct (Collection.eventSchema _ _ _ _) as [ev0|] eqn:Hdoc; [|done].
      injection Hrun as -> <-. exists v.
      pose proof (eventSchema_inv _ _ _ _ _ Hdoc) as (t & d & Hinv).
      assert (_id ev = fresh (dom (Collection.docs db))) as Hid
        by apply Hinv.
      split_and!; try done.
      rewrite Hid. apply not_elem_of_dom, is_fresh.
  - by rewrite (create_rejected _ _ _ _ _ Hv) in Hrun.
Qed.

Lemma update_on_collection db id p v :
  schema p = ZOk v ->
  Collection.outage db = None ->
  EventModel.update (Collection.Event levels) schema id p db
  = match Collection.docs db !! id with
    | Some ev =>
      let ev' := Collection.set_fields (Collection.now db) v ev in
      (Returned (Some ev'),
       Collection.with_docs db (<[id := ev']> (Collection.docs db)))
    | None => (Returned None, db)
    end.
Proof.
  intros Hv Hup. rewrite (update_accepted _ _ _ _ _ _ Hv).
  cbn [Collection.Event mongoose.findByIdAndUpdate].
  unfold Collection.connected. rewrite Hup.
  by destruct (Collection.docs db !! id).
Qed.
End OnCollection.

Lemma within_bounds lo hi s :
  Collection.within lo hi s = true ->
  lo <= Z.of_nat (String.length s)
  /\ forall h, hi = Some h -> Z.of_nat (String.length s) <= h.
Proof.
  unfold Collection.within. intros [Hlo Hhi]%andb_true_iff.
  split; [by apply Z.leb_le|]. intros h ->. by apply Z.leb_le.
Qed.

(** X4. When [create] returns a record on the collection, the record has
    an identifier no stored record had, [findById] with that identifier
    then returns the same record, [findAll] lists it, and every record
    stored before is still there, unchanged. *)
Theorem create_then_findById (levels : list string)
    (schema : Req.t -> ZodResult Req.t) (db db' : Collection.t)
    (p : Req.t) (ev : IEvent) :
  EventModel.create (Collection.Event levels) schema p db = (Returned ev, db') ->
  Collection.docs db !! _id ev = None
  /\ EventModel.findById (Collection.Event levels) (_id ev) db'
     = (Returned (Some ev), db')
  /\ (exists events,
        EventModel.findAll (Collection.Event levels) db' = (Returned events, db')
        /\ ev ∈ events)
  /\ (forall other, other ≠ _id ev ->
        Collection.docs db' !! other = Collection.docs db !! other)
  /\ size (Collection.docs db') = S (size (Collection.docs db)).
Proof.
  intros (v & _ & Hup & _ & _ & Hnew & ->)%create_returned.
  assert (Collection.outage
            (Collection.with_docs db (<[_id ev := ev]> (Collection.docs db)))
          = None) as Hup' by done.
  split_and!.
  - done.
  - etrans; [exact (findById_connected levels _ Hup' (_id ev))|].
    cbn [Collection.with_docs Collection.docs]. by rewrite lookup_insert_eq.
  - eexists. split; [exact (findAll_connected levels _ Hup')|].
    rewrite merge_sort_Permutation. unfold Collection.all.
    apply (list_elem_of_fmap_2' snd _ (_id ev, ev)); [|done].
    apply elem_of_map_to_list.
    cbn [Collection.with_docs Collection.docs]. by rewrite lookup_insert_eq.
  - intros other Hne. cbn [Collection.with_docs Collection.docs].
    by rewrite lookup_insert_ne.
  - cbn [Collection.with_docs Collection.docs].
    by apply map_size_insert_None.
Qed.

Lemma create_then_findById_witness :
  exists ev db',
    EventModel.create (Collection.Event SKILL_LEVELS)
      (event_types.createEventSchema SKILL_LEVELS) scenario_event db1
    = (Returned ev, db')
    /\ Collection.docs db1 !! _id ev = None.
Proof.
  destruct (EventModel.create (Collection.Event SKILL_LEVELS)
              (event_types.createEventSchema SKILL_LEVELS) scenario_event db1)
    as [[ev|e] db'] eqn:Hrun; [|by vm_compute in Hrun].
  exists ev, db'. split; [done|].
  exact (proj1 (create_then_findById _ _ _ _ _ _ Hrun)).
Defined.

(** X5. A record that [create] returns on the collection keeps the
    bounds of [eventSchema]: a title of 1 to 100 characters and a
    description that is not empty, both without white space at either
    end, a capacity of at least 1 and, if it has a skill level, an allowed
    one; its two timestamps are the time of the creation. *)
Theorem created_event_within_bounds (levels : list string)
    (schema : Req.t -> ZodResult Req.t) (db db' : Collection.t)
    (p : Req.t) (ev : IEvent) :
  EventModel.create (Collection.Event levels) schema p db = (Returned ev, db') ->
  1 <= Z.of_nat (String.length (title ev)) <= 100
  /\ 1 <= Z.of_nat (String.length (description ev))
  /\ Collection.trim (title ev) = title ev
  /\ Collection.trim (description ev) = description ev
  /\ 1 <= capacity ev
  /\ (forall l, skillLevel ev = Some l -> l ∈ levels)
  /\ createdAt ev = Collection.now db
  /\ updatedAt ev = Collection.now db.
Proof.
  intros (v & _ & _ & Hdoc & _)%create_returned.
  apply eventSchema_inv in Hdoc
    as (t & d & _ & _ & _ & _ & _ & Ht & Hd & Htb & Hdb & Hc & _ & Hl & _
        & _ & _ & _ & _ & _ & Hat & Hut).
  apply within_bounds in Htb as [Ht1 Ht2], Hdb as [Hd1 _].
  specialize (Ht2 100 eq_refl).
  split_and!; try done.
  - rewrite Ht. apply trim_idempotent.
  - rewrite Hd. apply trim_idempotent.
Qed.

Lemma created_event_within_bounds_witness :
  exists ev db',
    EventModel.create (Collection.Event SKILL_LEVELS)
      (event_types.createEventSchema SKILL_LEVELS) scenario_event db1
    = (Returned ev, db')
    /\ 1 <= Z.of_nat (String.length (title ev)) <= 100.
Proof.
  destruct (EventModel.create (Collection.Event SKILL_LEVELS)
              (event_types.createEventSchema SKILL_LEVELS) scenario_event db1)
    as [[ev|e] db'] eqn:Hrun; [|by vm_compute in Hrun].
  exists ev, db'. split; [done|].
  exact (proj1 (created_event_within_bounds _ _ _ _ _ _ Hrun)).
Defined.

(** X6. The record [create] returns holds the data the schema produced,
    not the payload as it came: the date, the capacity, the creator and
    the coordinates as validated, the attendees as validated or none when
    they are left out, and the string fields trimmed. *)
Theorem created_event_holds_validated_data (levels : list string)
    (schema : Req.t -> ZodResult Req.t) (db db' : Collection.t)
    (p v : Req.t) (ev : IEvent) :
  schema p = ZOk v ->
  EventModel.create (Collection.Event levels) schema p db = (Returned ev, db') ->
  Req.date v = Some (date ev)
  /\ Req.capacity v = Some (capacity ev)
  /\ Req.createdBy v = Some (createdBy ev)
  /\ Collection.trim <$> Req.title v = Some (title ev)
  /\ Collection.trim <$> Req.description v = Some (description ev)
  /\ Collection.trim <$> Req.skillLevel v = skillLevel ev
  /\ Collection.trim <$> Req.location v = location ev
  /\ Collection.trim <$> Req.photo v = photo ev
  /\ Req.latitude v = latitude ev
  /\ Req.longitude v = longitude ev
  /\ default [] (Req.attendees v) = attendees ev.
Proof.
  intros Hv (v' & Hv' & _ & Hdoc & _)%create_returned.
  assert (v' = v) as -> by congruence.
  apply eventSchema_inv in Hdoc
    as (t & d & Ht & Hd & Hw & Hc & Hcr & -> & -> & _ & _ & _ & Hl & _ & Hloc
        & Hph & Hlat & Hlon & Hatt & _).
  rewrite Ht, Hd. by split_and!.
Qed.

Lemma created_event_holds_validated_data_witness :
  event_types.createEventSchema SKILL_LEVELS scenario_event = ZOk scenario_event
  /\ exists ev db',
       EventModel.create (Collection.Event SKILL_LEVELS)
         (event_types.createEventSchema SKILL_LEVELS) scenario_event db1
       = (Returned ev, db')
       /\ Req.capacity scenario_event = Some (capacity ev).
Proof.
  split; [reflexivity|].
  destruct (EventModel.create (Collection.Event SKILL_LEVELS)
              (event_types.createEventSchema SKILL_LEVELS) scenario_event db1)
    as [[ev|e] db'] eqn:Hrun; [|by vm_compute in Hrun].
  exists ev, db'. split; [done|].
  exact (proj1 (proj2 (created_event_holds_validated_data SKILL_LEVELS
                         (event_types.createEventSchema SKILL_LEVELS) db1 db'
                         scenario_event scenario_event ev eq_refl Hrun))).
Defined.

(** X7. On a connected collection, [create] of a payload the schema
    accepted throws "Failed to create event" exactly when a validator of
    [eventSchema] turns the validated data down, a title of white space
    only for one, and then stores nothing; otherwise it returns a
    record. *)
Theorem create_fails_on_validators (levels : list string)
    (schema : Req.t -> ZodResult Req.t) (db : Collection.t) (p v : Req.t) :
  schema p = ZOk v ->
  Collection.outage db = None ->
  (fails_validators levels v <->
   EventModel.create (Collection.Event levels) schema p db
   = (Thrown (Error "Failed to create event"), db))
  /\ (~ fails_validators levels v <->
      exists ev db',
        EventModel.create (Collection.Event levels) schema p db
        = (Returned ev, db')).
Proof.
  intros Hv Hup. rewrite (create_on_collection _ _ _ _ _ Hv Hup).
  rewrite <- (eventSchema_fails levels (fresh (dom (Collection.docs db)))
                (Collection.now db) v).
  destruct (Collection.eventSchema _ _ _ _) as [ev|]; split.
  - by split.
  - split; [eauto|done].
  - by split.
  - split; [done|]. by intros (ev & db' & ?).
Qed.

Lemma create_fails_on_validators_witness :
  event_types.createEventSchema SKILL_LEVELS (with_title blank_title scenario_event)
  = ZOk (with_title blank_title scenario_event)
  /\ Collection.outage db1 = None
  /\ fails_validators SKILL_LEVELS (with_title blank_title scenario_event)
  /\ EventModel.create (Collection.Event SKILL_LEVELS)
       (event_types.createEventSchema SKILL_LEVELS)
       (with_title blank_title scenario_event) db1
     = (Thrown (Error "Failed to create event"), db1).
Proof.
  assert (fails_validators SKILL_LEVELS (with_title blank_title scenario_event))
    as Hblank by (left; by intros t [= <-]).
  split_and!; [reflexivity..|exact Hblank|].
  by apply (create_fails_on_validators SKILL_LEVELS
              (event_types.createEventSchema SKILL_LEVELS) db1
              (with_title blank_title scenario_event)
              (with_title blank_title scenario_event) eq_refl eq_refl).
Defined.

(** ** Updates on the collection *)

Lemma set_fields_again stamp later v ev :
  Collection.set_fields later v (Collection.set_fields stamp v ev)
  = Collection.restamp later (Collection.set_fields stamp v ev).
Proof.
  unfold Collection.set_fields, Collection.restamp; simpl. f_equal.
  - by destruct (Req.title v).
  - by destruct (Req.description v).
  - by destruct (Req.date v).
  - by destruct (Req.capacity v).
  - by destruct (Req.skillLevel v).
  - by destruct (Req.location v).
  - by destruct (Req.latitude v).
  - by destruct (Req.longitude v).
  - by destruct (Req.createdBy v).
  - by destruct (Req.attendees v).
  - by destruct (Req.photo v).
Qed.

(** X8. On a connected collection, [update] of a stored record with a
    payload the schema accepted returns the record as it is stored after
    the update, not as it was before: the store holds that record under
    the identifier and [findById] returns it.  The record keeps its
    identifier and its time of creation, is stamped with the time of the
    call, takes each field the validated data has (the strings trimmed)
    and keeps each field it has not; no other record changes and none is
    added. *)
Theorem update_returns_stored_record (levels : list string)
    (schema : Req.t -> ZodResult Req.t) (db : Collection.t)
    (id : ObjectId) (p v : Req.t) (ev : IEvent) :
  schema p = ZOk v ->
  Collection.outage db = None ->
  Collection.docs db !! id = Some ev ->
  exists ev' db',
    EventModel.update (Collection.Event levels) schema id p db
    = (Returned (Some ev'), db')
    /\ Collection.docs db' !! id = Some ev'
    /\ EventModel.findById (Collection.Event levels) id db'
       = (Returned (Some ev'), db')
    /\ _id ev' = _id ev
    /\ createdAt ev' = createdAt ev
    /\ updatedAt ev' = Collection.now db
    /\ title ev'
       = match Req.title v with
         | Some t => Collection.trim t
         | None => title ev
         end
    /\ description ev'
       = match Req.description v with
         | Some d => Collection.trim d
         | None => description ev
         end
    /\ date ev' = match Req.date v with Some d => d | None => date ev end
    /\ capacity ev'
       = match Req.capacity v with Some c => c | None => capacity ev end
    /\ skillLevel ev'
       = match Req.skillLevel v with
         | Some l => Some (Collection.trim l)
         | None => skillLevel ev
         end
    /\ location ev'
       = match Req.location v with
         | Some l => Some (Collection.trim l)
         | None => location ev
         end
    /\ latitude ev'
       = match Req.latitude v with Some x => Some x | None => latitude ev end
    /\ longitude ev'
       = match Req.longitude v with Some x => Some x | None => longitude ev end
    /\ createdBy ev'
       = match Req.createdBy v with Some u => u | None => createdBy ev end
    /\ attendees ev'
       = match Req.attendees v with Some l => l | None => attendees ev end
    /\ photo ev'
       = match Req.photo v with
         | Some f => Some (Collection.trim f)
         | None => photo ev
         end
    /\ (forall other, other ≠ id ->
          Collection.docs db' !! other = Collection.docs db !! other)
    /\ size (Collection.docs db') = size (Collection.docs db).
Proof.
  intros Hv Hup Hev. rewrite (update_on_collection _ _ _ _ _ _ Hv Hup), Hev.
  cbv zeta. eexists _, _. split; [reflexivity|].
  cbn [Collection.with_docs Collection.docs].
  split_and!; try reflexivity.
  - apply lookup_insert_eq.
  - etrans; [by apply (findById_connected levels)|].
    cbn [Collection.with_docs Collection.docs]. by rewrite lookup_insert_eq.
  - simpl. by destruct (Req.title v).
  - simpl. by destruct (Req.description v).
  - simpl. by destruct (Req.skillLevel v).
  - simpl. by destruct (Req.location v).
  - simpl. by destruct (Req.photo v).
  - intros other Hne. by rewrite lookup_insert_ne.
  - rewrite map_size_insert, Hev. done.
Qed.

Lemma update_returns_stored_record_witness :
  event_types.updateEventSchema SKILL_LEVELS (with_capacity 4 (Req.only_attendees [3%N]))
  = ZOk (with_capacity 4 (Req.only_attendees [3%N]))
  /\ Collection.outage db1 = None
  /\ Collection.docs db1 !! 5%N = Some (sample_event 5%N 100 2 [9%N])
  /\ exists ev' db',
       EventModel.update (Collection.Event SKILL_LEVELS)
         (event_types.updateEventSchema SKILL_LEVELS) 5%N
         (with_capacity 4 (Req.only_attendees [3%N])) db1
       = (Returned (Some ev'), db')
       /\ Collection.docs db' !! 5%N = Some ev'
       /\ capacity ev' = 4 /\ attendees ev' = [3%N] /\ date ev' = 100
       /\ photo ev' = None.
Proof.
  split_and!; [reflexivity..|].
  destruct (update_returns_stored_record SKILL_LEVELS
              (event_types.updateEventSchema SKILL_LEVELS) db1 5%N
              (with_capacity 4 (Req.only_attendees [3%N]))
              (with_capacity 4 (Req.only_attendees [3%N]))
              (sample_event 5%N 100 2 [9%N]) eq_refl eq_refl eq_refl)
    as (ev' & db' & Hrun & Hstored & _ & _ & _ & _ & _ & _ & Hd & Hc & _ & _
        & _ & _ & _ & Ha & Hp & _).
  exists ev', db'. by split_and!.
Defined.

(** X9. On a connected collection, doing an [update] again with the same
    payload, any time later, changes nothing but the time of the update:
    it returns the record the first update returned with [updatedAt] the
    time of the second call (null if the first returned null), the store
    holds that record under the identifier, and no other record
    changes. *)
Theorem update_again_restamps_only (levels : list string)
    (schema : Req.t -> ZodResult Req.t) (db db' : Collection.t)
    (id : ObjectId) (p : Req.t) (updated : option IEvent) (d : Z) :
  Collection.outage db = None ->
  EventModel.update (Collection.Event levels) schema id p db
  = (Returned updated, db') ->
  exists db'',
    EventModel.update (Collection.Event levels) schema id p
      (Collection.elapse d db')
    = (Returned (Collection.restamp (Collection.now db + d) <$> updated), db'')
    /\ Collection.docs db' !! id = updated
    /\ Collection.docs db'' !! id
       = Collection.restamp (Collection.now db + d) <$> updated
    /\ (forall ev', updated = Some ev' -> updatedAt ev' = Collection.now db)
    /\ (forall other, other ≠ id ->
          Collection.docs db'' !! other = Collection.docs db' !! other)
    /\ Collection.now db'' = Collection.now db + d.
Proof.
  intros Hup Hrun. destruct (schema p) as [v|issues] eqn:Hv.
  - rewrite (update_on_collection _ _ _ _ _ _ Hv Hup) in Hrun.
    destruct (Collection.docs db !! id) as [ev|] eqn:Hev.
    + injection Hrun as <- <-.
      rewrite (update_on_collection _ _ _ _ _ _ Hv) by done.
      cbn [Collection.elapse Collection.with_docs Collection.docs
           Collection.now].
      rewrite lookup_insert_eq. cbv zeta. rewrite set_fields_again.
      eexists. split; [reflexivity|].
      cbn [Collection.with_docs Collection.docs Collection.now].
      split_and!.
      * done.
      * apply lookup_insert_eq.
      * by intros ev' [= <-].
      * intros other Hne. by rewrite lookup_insert_ne.
      * done.
    + injection Hrun as <- <-.
      rewrite (update_on_collection _ _ _ _ _ _ Hv) by done.
      cbn [Collection.elapse Collection.docs]. rewrite Hev.
      eexists. split; [reflexivity|]. by split_and!.
  - by rewrite (update_rejected _ _ _ _ _ _ Hv) in Hrun.
Qed.

Lemma update_again_restamps_only_witness :
  Collection.outage db1 = None
  /\ exists updated db' db'',
       EventModel.update (Collection.Event SKILL_LEVELS)
         (event_types.updateEventSchema SKILL_LEVELS) 5%N
         (with_title "  Night dive " (Req.only_attendees [])) db1
       = (Returned updated, db')
       /\ EventModel.update (Collection.Event SKILL_LEVELS)
            (event_types.updateEventSchema SKILL_LEVELS) 5%N
            (with_title "  Night dive " (Req.only_attendees []))
            (Collection.elapse 2 db')
          = (Returned (Collection.restamp 9 <$> updated), db'')
       /\ updatedAt <$> updated = Some 7
       /\ updatedAt <$> Collection.docs db'' !! 5%N = Some 9.
Proof.
  split; [reflexivity|].
  destruct (EventModel.update (Collection.Event SKILL_LEVELS)
              (event_types.updateEventSchema SKILL_LEVELS) 5%N
              (with_title "  Night dive " (Req.only_attendees [])) db1)
    as [[updated|e] db'] eqn:Hrun; [|by vm_compute in Hrun].
  destruct (update_again_restamps_only SKILL_LEVELS _ db1 _ _ _ _ 2 eq_refl Hrun)
    as (db'' & Hagain & _ & Hstored & Hstamp & _).
  exists updated, db', db''. split; [done|]. split; [exact Hagain|].
  assert (exists ev', updated = Some ev') as [ev' ->].
  { vm_compute in Hrun. injection Hrun as <- _. eauto. }
  split.
  - simpl. f_equal. by apply Hstamp.
  - etrans; [exact (f_equal (fmap updatedAt) Hstored)|reflexivity].
Defined.

(** ** Create, then delete *)

(** X10. Deleting the record that [create] has just returned gives back
    the store as it was before the creation. *)
Theorem create_then_delete (levels : list string)
    (schema : Req.t -> ZodResult Req.t) (db db' : Collection.t)
    (p : Req.t) (ev : IEvent) :
  EventModel.create (Collection.Event levels) schema p db = (Returned ev, db') ->
  EventModel.delete (Collection.Event levels) (_id ev) db' = (Returned tt, db).
Proof.
  intros (v & _ & Hup & _ & _ & Hnew & ->)%create_returned.
  etrans; [by apply (delete_connected levels)|].
  cbn [Collection.with_docs Collection.docs Collection.now Collection.outage].
  rewrite delete_insert_eq, delete_id by done.
  f_equal. by destruct db.
Qed.

Lemma create_then_delete_witness :
  exists ev db',
    EventModel.create (Collection.Event SKILL_LEVELS)
      (event_types.createEventSchema SKILL_LEVELS) scenario_event db1
    = (Returned ev, db')
    /\ EventModel.delete (Collection.Event SKILL_LEVELS) (_id ev) db'
       = (Returned tt, db1).
Proof.
  destruct (EventModel.create (Collection.Event SKILL_LEVELS)
              (event_types.createEventSchema SKILL_LEVELS) scenario_event db1)
    as [[ev|e] db'] eqn:Hrun; [|by vm_compute in Hrun].
  exists ev, db'. split; [done|].
  exact (create_then_delete _ _ _ _ _ _ Hrun).
Defined.

(** The setter removes a no-break space like any other white space. *)
Example trim_no_break_space :
  Collection.trim (String "160" (String "009" "Night dive" +:+ blank_title))
  = "Night dive"
  /\ Collection.trim blank_title = "".
Proof. by vm_compute. Qed.
